(** * The [no-invalid-v-model] rule of eslint-plugin-vue

    A shallow embedding of [lib/rules/no-invalid-v-model.js]: the helpers
    [isValidElement], [isLhs] and [getVariable], and the visitor that
    [create] registers for [VAttribute[directive=true][key.name='model']].

    Reports made through [context.report] are threaded as explicit state;
    a property read on [null] is a thrown [TypeError]. *)

From stdpp Require Import base strings list sorting gmap.

Set Warnings "-register-all".
Open Scope string_scope.
Open Scope list_scope.

(** ** The template AST, as the rule reads it *)

(** Source locations ([node.loc]). *)
Record Position := { line : nat; column : nat }.
Record SourceLocation := { loc_start : Position; loc_end : Position }.

(** The node an identifier hangs under ([id.parent]): its [type], and the
    property of the parent that holds the identifier ([object], [property],
    [callee], [expression], ...), so that [id.parent.object === id] reads
    [child_key = "object"]. *)
Record ParentNode := { p_type : string; child_key : string }.

(** An ESTree [Identifier] node with its parent link. *)
Record Identifier_node := { id_name : string; id_parent : ParentNode }.

(** A variable declared by an element (the iteration variables of [v-for]). *)
Record ScopeVariable := { var_id : Identifier_node }.

(** A free identifier of a directive's expression. *)
Record Reference := { ref_id : Identifier_node }.

(** ESTree expressions; only the constructor (the node's [type]) matters
    to the rule. *)
Inductive Expression :=
| Identifier (name : string)
| MemberExpression (object property : Expression) (computed : bool)
| CallExpression (callee : Expression) (arguments : list Expression)
| NewExpression (callee : Expression) (arguments : list Expression)
| Literal (raw : string)
| TemplateLiteral (raw : string)
| ThisExpression
| ArrayExpression (elements : list Expression)
| ObjectExpression (properties : list (string * Expression))
| FunctionExpression (params : list string)
| ArrowFunctionExpression (params : list string)
| UnaryExpression (operator : string) (argument : Expression)
| UpdateExpression (operator : string) (argument : Expression)
| BinaryExpression (operator : string) (left right : Expression)
| LogicalExpression (operator : string) (left right : Expression)
| AssignmentExpression (operator : string) (left right : Expression)
| ConditionalExpression (test consequent alternate : Expression)
| SequenceExpression (expressions : list Expression).

(** [node.type] *)
Definition type (node : Expression) : string :=
  match node with
  | Identifier _ => "Identifier"
  | MemberExpression _ _ _ => "MemberExpression"
  | CallExpression _ _ => "CallExpression"
  | NewExpression _ _ => "NewExpression"
  | Literal _ => "Literal"
  | TemplateLiteral _ => "TemplateLiteral"
  | ThisExpression => "ThisExpression"
  | ArrayExpression _ => "ArrayExpression"
  | ObjectExpression _ => "ObjectExpression"
  | FunctionExpression _ => "FunctionExpression"
  | ArrowFunctionExpression _ => "ArrowFunctionExpression"
  | UnaryExpression _ _ => "UnaryExpression"
  | UpdateExpression _ _ => "UpdateExpression"
  | BinaryExpression _ _ _ => "BinaryExpression"
  | LogicalExpression _ _ _ => "LogicalExpression"
  | AssignmentExpression _ _ _ => "AssignmentExpression"
  | ConditionalExpression _ _ _ => "ConditionalExpression"
  | SequenceExpression _ => "SequenceExpression"
  end.

(** [VExpressionContainer]: the parsed attribute value.  [expression] is
    [null] when the value is empty. *)
Record VExpressionContainer := {
  expression : option Expression;
  references : list Reference
}.

(** [VDirectiveKey] *)
Record VDirectiveKey := {
  key_name : string;
  key_argument : option string;
  key_modifiers : list string
}.

(** An entry of [element.startTag.attributes], as [lib/utils] inspects it:
    whether it is a directive, [key.name], [key.argument] and the literal
    value. *)
Record StartTagAttribute := {
  st_directive : bool;
  st_name : string;
  st_argument : option string;
  st_value : option string
}.

(** A node of the parent chain ([VElement] and what encloses it): its tag
    name, the attributes of its start tag, the variables it declares
    ([undefined] on nodes that declare none) and its [parent] ([null] at
    the root).  The rule itself reads [name], [variables] and [parent]. *)
Inductive VElement := mkVElement {
  el_name : string;
  el_attributes : list StartTagAttribute;
  el_variables : option (list ScopeVariable);
  el_parent : option VElement
}.

(** [VAttribute]: [attr_element] is [node.parent.parent], the element whose
    start tag holds the attribute. *)
Record VAttribute := {
  directive : bool;
  attr_key : VDirectiveKey;
  attr_value : option VExpressionContainer;
  attr_element : VElement;
  attr_loc : SourceLocation
}.

(** The descriptor handed to [context.report]. *)
Record Report := {
  node : VAttribute;
  loc : SourceLocation;
  message : string;
  data : option (list (string * string))
}.

(** ** Completions and the rule monad *)

Inductive Completion (A : Type) :=
| Normal (a : A)
| Throw (error : string).
Arguments Normal {A} a.
Arguments Throw {A} error.

(** Reading a property of a nullable value: [null.f] throws. *)
Definition field {A B : Type} (o : option A) (f : A → B) : Completion B :=
  match o with
  | Some a => Normal (f a)
  | None => Throw "TypeError"
  end.

(** A computation that may report to the [RuleContext] and may throw. *)
Definition Rule (A : Type) : Type :=
  list Report → Completion (A * list Report).

#[export] Instance rule_ret : MRet Rule :=
  λ A a reports, Normal (a, reports).

#[export] Instance rule_bind : MBind Rule :=
  λ A B k m reports,
    match m reports with
    | Normal (a, reports') => k a reports'
    | Throw e => Throw e
    end.

Definition lift {A : Type} (c : Completion A) : Rule A :=
  λ reports,
    match c with
    | Normal a => Normal (a, reports)
    | Throw e => Throw e
    end.

(** [context.report(descriptor)] *)
Definition report (descriptor : Report) : Rule unit :=
  λ reports, Normal (tt, reports ++ [descriptor]).

(** [if (c) { body }] *)
Definition when (c : bool) (body : Rule unit) : Rule unit :=
  if c then body else mret tt.

(** [for (const x of xs) { body }] *)
Fixpoint for_of {A : Type} (xs : list A) (body : A → Rule unit) : Rule unit :=
  match xs with
  | [] => mret tt
  | x :: xs' => body x ;; for_of xs' body
  end.

(** The reports a rule makes when run from a fresh context. *)
Definition reports_of (m : Rule unit) : Completion (list Report) :=
  match m [] with
  | Normal (_, reports) => Normal reports
  | Throw e => Throw e
  end.

(** ** [lib/utils], which the rule requires *)

(** The helpers of [require('../utils')] that the rule calls. *)
Record Utils := {
  isCustomComponent : VElement → bool;
  (** [hasDirective(element, name, argument)] *)
  hasDirective : VElement → string → string → bool;
  (** [hasAttribute(element, name, value)] *)
  hasAttribute : VElement → string → string → bool;
  hasAttributeValue : VAttribute → bool
}.

(** Modelled from the spec: [utils.hasAttributeValue], which is not part of
    the rule's file.  A binding has its value when the [="..."] form is
    present, whether or not the text between the quotes is empty. *)
Definition hasAttributeValue_spec (node : VAttribute) : bool :=
  bool_decide (is_Some (attr_value node)).

(** ** Helpers *)

Definition VALID_MODIFIERS : gset string := {[ "lazy"; "number"; "trim" ]}.

(** JavaScript truthiness of a [string|null]. *)
Definition truthy (s : option string) : bool :=
  match s with
  | Some s => negb (bool_decide (s = ""))
  | None => false
  end.

Definition isValidElement (utils : Utils) (node : VElement) : bool :=
  let name := el_name node in
  bool_decide (name = "input") ||
  bool_decide (name = "select") ||
  bool_decide (name = "textarea") ||
  (negb (bool_decide (name = "keep-alive")) &&
   negb (bool_decide (name = "slot")) &&
   negb (bool_decide (name = "transition")) &&
   negb (bool_decide (name = "transition-group")) &&
   isCustomComponent utils node).

Definition isLhs (node : option Expression) : Completion bool :=
  if bool_decide (node ≠ None) then
    match field node type with
    | Normal t =>
        Normal (bool_decide (t = "Identifier") ||
                bool_decide (t = "MemberExpression"))
    | Throw e => Throw e
    end
  else Normal false.

Fixpoint getVariable (name : string) (leafNode : VElement) : option ScopeVariable :=
  let variables := el_variables leafNode in
  let variable :=
    variables ≫= find (λ v, bool_decide (id_name (var_id v) = name)) in
  match variable with
  | Some v => Some v
  | None =>
      match el_parent leafNode with
      | Some parent => getVariable name parent
      | None => None
      end
  end.

(** ** The rule *)

(** The report descriptors of the visitor, in source order.  Each carries
    the directive node and its location. *)
Definition UnsupportedHost (node : VAttribute) : Report :=
  {| node := node; loc := attr_loc node;
     message := "'v-model' directives aren't supported on <{{name}}> elements.";
     data := Some [("name", el_name (attr_element node))] |}.

Definition DynamicInputType (node : VAttribute) : Report :=
  {| node := node; loc := attr_loc node;
     message := "'v-model' directives don't support dynamic input types.";
     data := Some [("name", el_name (attr_element node))] |}.

Definition FileInputType (node : VAttribute) : Report :=
  {| node := node; loc := attr_loc node;
     message := "'v-model' directives don't support 'file' input type.";
     data := Some [("name", el_name (attr_element node))] |}.

Definition UnexpectedArgument (node : VAttribute) : Report :=
  {| node := node; loc := attr_loc node;
     message := "'v-model' directives require no argument.";
     data := None |}.

Definition UnsupportedModifier (node : VAttribute) (modifier : string) : Report :=
  {| node := node; loc := attr_loc node;
     message := "'v-model' directives don't support the modifier '{{name}}'.";
     data := Some [("name", modifier)] |}.

Definition MissingValue (node : VAttribute) : Report :=
  {| node := node; loc := attr_loc node;
     message := "'v-model' directives require that attribute value.";
     data := None |}.

Definition InvalidLhs (node : VAttribute) : Report :=
  {| node := node; loc := attr_loc node;
     message := "'v-model' directives require the attribute value which is valid as LHS.";
     data := None |}.

Definition SelfAliasing (node : VAttribute) : Report :=
  {| node := node; loc := attr_loc node;
     message := "'v-model' directives cannot update the iteration variable 'x' itself.";
     data := None |}.

(** The visitor registered under
    ["VAttribute[directive=true][key.name='model']"]. *)
Definition VAttribute_model (utils : Utils) (node : VAttribute) : Rule unit :=
  let element := attr_element node in
  let name := el_name element in
  when (negb (isValidElement utils element))
    (report (UnsupportedHost node)) ;;
  when (bool_decide (name = "input"))
    (when (hasDirective utils element "bind" "type")
       (report (DynamicInputType node)) ;;
     when (hasAttribute utils element "type" "file")
       (report (FileInputType node))) ;;
  when (truthy (key_argument (attr_key node)))
    (report (UnexpectedArgument node)) ;;
  for_of (key_modifiers (attr_key node)) (λ modifier,
    when (negb (bool_decide (modifier ∈ VALID_MODIFIERS)))
      (report (UnsupportedModifier node modifier))) ;;
  when (negb (hasAttributeValue utils node))
    (report (MissingValue node)) ;;
  when (bool_decide (attr_value node ≠ None))
    (expression ← lift (field (attr_value node) expression);
     lhs ← lift (isLhs expression);
     when (negb lhs)
       (report (InvalidLhs node)) ;;
     references ← lift (field (attr_value node) references);
     for_of references (λ reference,
       let id := ref_id reference in
       if bool_decide (p_type (id_parent id) = "MemberExpression")
       then mret tt
       else
         let variable := getVariable (id_name id) element in
         when (bool_decide (variable ≠ None))
           (report (SelfAliasing node)))).

(** The selector of the visitor. *)
Definition selector (node : VAttribute) : bool :=
  directive node && bool_decide (key_name (attr_key node) = "model").

(** [create(context)]: the template-body visitor it registers, at one
    attribute node of the traversal. *)
Definition create (utils : Utils) (node : VAttribute) : Rule unit :=
  when (selector node) (VAttribute_model utils node).

(** * Verification *)

(** ** Specification-level definitions *)

(** [emits m rs]: from any context, [m] completes normally and appends
    exactly the reports [rs]. *)
Definition emits (m : Rule unit) (rs : list Report) : Prop :=
  ∀ reports, m reports = Normal (tt, reports ++ rs).

(** The assignment-target test as a total function. *)
Definition is_lhs (node : option Expression) : bool :=
  match node with
  | Some (Identifier _) | Some (MemberExpression _ _ _) => true
  | _ => false
  end.

(** A reference that the loop over [node.value.references] reports: its
    identifier does not hang under a member access and its name resolves
    from the host element. *)
Definition reported (element : VElement) (reference : Reference) : Prop :=
  p_type (id_parent (ref_id reference)) ≠ "MemberExpression" ∧
  getVariable (id_name (ref_id reference)) element ≠ None.

#[export] Instance reported_dec element reference :
  Decision (reported element reference) :=
  ltac:(unfold reported; apply _).

(** The reports of one run of the visitor, block by block. *)
Definition host_reports (utils : Utils) (node : VAttribute) : list Report :=
  if isValidElement utils (attr_element node) then [] else [UnsupportedHost node].

Definition input_type_reports (utils : Utils) (node : VAttribute) : list Report :=
  let element := attr_element node in
  if bool_decide (el_name element = "input") then
    (if hasDirective utils element "bind" "type" then [DynamicInputType node] else []) ++
    (if hasAttribute utils element "type" "file" then [FileInputType node] else [])
  else [].

Definition argument_reports (node : VAttribute) : list Report :=
  if truthy (key_argument (attr_key node)) then [UnexpectedArgument node] else [].

Definition modifier_reports (node : VAttribute) : list Report :=
  UnsupportedModifier node <$>
    filter (λ modifier, modifier ∉ VALID_MODIFIERS) (key_modifiers (attr_key node)).

Definition missing_value_reports (utils : Utils) (node : VAttribute) : list Report :=
  if hasAttributeValue utils node then [] else [MissingValue node].

Definition value_reports (node : VAttribute) : list Report :=
  match attr_value node with
  | None => []
  | Some value =>
      (if is_lhs (expression value) then [] else [InvalidLhs node]) ++
      ((λ _, SelfAliasing node) <$>
         filter (reported (attr_element node)) (references value))
  end.

Definition findings (utils : Utils) (node : VAttribute) : list Report :=
  host_reports utils node ++ input_type_reports utils node ++
  argument_reports node ++ modifier_reports node ++
  missing_value_reports utils node ++ value_reports node.

(** The nodes of the parent chain of [leafNode], innermost first. *)
Fixpoint scope_chain (leafNode : VElement) : list VElement :=
  leafNode ::
    match el_parent leafNode with
    | Some parent => scope_chain parent
    | None => []
    end.

(** The variables a node declares; none when [variables] is [undefined]. *)
Definition declared (frame : VElement) : list ScopeVariable :=
  default [] (el_variables frame).

(** Closes the equivalences between membership in a block and the guard
    of the block. *)
Ltac block_solver :=
  rewrite ?elem_of_app, ?elem_of_nil, ?list_elem_of_singleton;
  intuition (try discriminate; try congruence; eauto).

(** Destructs a membership [H : r ∈ findings utils node] into the eight
    descriptors; [H] becomes the equation of [r]. *)
Ltac findings_cases H lem :=
  let Hguard := fresh "Hguard" in
  let Hname := fresh "Hname" in
  let Hin := fresh "Hin" in
  let Hvalue := fresh "Hvalue" in
  let modifier := fresh "modifier" in
  let value := fresh "value" in
  let reference := fresh "reference" in
  apply lem in H;
  destruct H as
    [[H Hguard]|[(H & Hname & Hguard)|[(H & Hname & Hguard)|[[H Hguard]|
     [(modifier & H & Hin & Hguard)|[[H Hguard]|
     [(H & value & Hvalue & Hguard)|
      (H & value & reference & Hvalue & Hin & Hguard)]]]]]]].

(** ** Example templates *)

(** An implementation of the helpers of [lib/utils] over the start-tag
    attributes, for the examples. *)
Definition html_names : list string :=
  ["template"; "div"; "ul"; "li"; "input"; "select"; "textarea"].

Definition ex_utils : Utils := {|
  isCustomComponent := λ element,
    negb (bool_decide (el_name element ∈ html_names));
  hasDirective := λ element name argument,
    existsb (λ a, st_directive a && bool_decide (st_name a = name) &&
                  bool_decide (st_argument a = Some argument))
      (el_attributes element);
  hasAttribute := λ element name value,
    existsb (λ a, negb (st_directive a) && bool_decide (st_name a = name) &&
                  bool_decide (st_value a = Some value))
      (el_attributes element);
  hasAttributeValue := hasAttributeValue_spec
|}.

Definition ex_loc : SourceLocation :=
  {| loc_start := {| line := 1; column := 17 |};
     loc_end := {| line := 1; column := 31 |} |}.

Definition ident (name parent_type key : string) : Identifier_node :=
  {| id_name := name;
     id_parent := {| p_type := parent_type; child_key := key |} |}.

Definition st_v_model : StartTagAttribute :=
  {| st_directive := true; st_name := "model"; st_argument := None;
     st_value := None |}.

(** [<template><ul><li v-for="(item, i) in items"> ... </li></ul></template>] *)
Definition ex_template : VElement := mkVElement "template" [] (Some []) None.
Definition ex_ul : VElement := mkVElement "ul" [] (Some []) (Some ex_template).
Definition var_item : ScopeVariable :=
  {| var_id := ident "item" "VForExpression" "left" |}.
Definition var_i : ScopeVariable :=
  {| var_id := ident "i" "VForExpression" "left" |}.
Definition ex_li : VElement :=
  mkVElement "li"
    [{| st_directive := true; st_name := "for"; st_argument := None;
        st_value := None |}]
    (Some [var_item; var_i]) (Some ex_ul).

(** Hosts inside the [li]. *)
Definition ex_input : VElement :=
  mkVElement "input" [st_v_model] (Some []) (Some ex_li).
Definition ex_div : VElement :=
  mkVElement "div" [st_v_model] (Some []) (Some ex_li).
(** [<input type="file" :type="t" v-model="foo">] *)
Definition ex_file_input : VElement :=
  mkVElement "input"
    [{| st_directive := false; st_name := "type"; st_argument := None;
        st_value := Some "file" |};
     {| st_directive := true; st_name := "bind"; st_argument := Some "type";
        st_value := None |};
     st_v_model]
    (Some []) (Some ex_li).

Definition v_model (element : VElement) (argument : option string)
    (modifiers : list string) (value : option VExpressionContainer) : VAttribute :=
  {| directive := true;
     attr_key := {| key_name := "model"; key_argument := argument;
                    key_modifiers := modifiers |};
     attr_value := value;
     attr_element := element;
     attr_loc := ex_loc |}.

(** [v-model="foo"] *)
Definition value_foo : VExpressionContainer :=
  {| expression := Some (Identifier "foo");
     references := [{| ref_id := ident "foo" "VExpressionContainer" "expression" |}] |}.
(** [v-model="item"] *)
Definition value_item : VExpressionContainer :=
  {| expression := Some (Identifier "item");
     references := [{| ref_id := ident "item" "VExpressionContainer" "expression" |}] |}.
(** [v-model="items[i]"] *)
Definition ref_items : Reference :=
  {| ref_id := ident "items" "MemberExpression" "object" |}.
Definition ref_i : Reference :=
  {| ref_id := ident "i" "MemberExpression" "property" |}.
Definition value_items_i : VExpressionContainer :=
  {| expression :=
       Some (MemberExpression (Identifier "items") (Identifier "i") true);
     references := [ref_items; ref_i] |}.
(** [v-model="foo()"] *)
Definition value_call : VExpressionContainer :=
  {| expression := Some (CallExpression (Identifier "foo") []);
     references := [{| ref_id := ident "foo" "CallExpression" "callee" |}] |}.
(** [v-model=""] *)
Definition value_empty : VExpressionContainer :=
  {| expression := None; references := [] |}.

(** [<input v-model="foo">] *)
Definition input_foo : VAttribute := v_model ex_input None [] (Some value_foo).
(** [<div v-model="foo">] *)
Definition div_foo : VAttribute := v_model ex_div None [] (Some value_foo).
(** [<input type="file" :type="t" v-model="foo">] *)
Definition file_input_foo : VAttribute :=
  v_model ex_file_input None [] (Some value_foo).
(** [<input v-model:aaa="foo">] *)
Definition input_arg_aaa : VAttribute :=
  v_model ex_input (Some "aaa") [] (Some value_foo).
(** [<input v-model:="foo">] *)
Definition input_arg_empty : VAttribute :=
  v_model ex_input (Some "") [] (Some value_foo).
(** [<input v-model.lazy.aaa.trim.bbb.aaa="foo">] *)
Definition input_modifiers : VAttribute :=
  v_model ex_input None ["lazy"; "aaa"; "trim"; "bbb"; "aaa"] (Some value_foo).
(** [<input v-model>] *)
Definition input_no_value : VAttribute := v_model ex_input None [] None.
(** [<input v-model="">] *)
Definition input_empty_value : VAttribute :=
  v_model ex_input None [] (Some value_empty).
(** [<input v-model="foo()">] *)
Definition input_call : VAttribute := v_model ex_input None [] (Some value_call).
(** [<input v-model="item">] *)
Definition input_item : VAttribute := v_model ex_input None [] (Some value_item).
(** [<input v-model="items[i]">] *)
Definition input_items_i : VAttribute :=
  v_model ex_input None [] (Some value_items_i).

(** ** The scope walk over a store of node objects *)

(** A node of the parent chain as an object of the store: the fields the
    loop of [getVariable] reads, with [parent] a reference to another
    object, or [null]. *)
Record NodeObject := {
  obj_variables : option (list ScopeVariable);
  obj_parent : option nat
}.

(** [getVariable] as the loop it is, over the store of node objects:
    [node] is a reference or [null], every turn of the [while] reads the
    object [node] refers to, and the store is handed back with the result.
    [fuel] bounds the turns; a reference to no object cannot be read. *)
Fixpoint getVariable_loop (fuel : nat) (name : string) (node : option nat)
    (store : gmap nat NodeObject)
    : option (Completion (option ScopeVariable) * gmap nat NodeObject) :=
  match node with
  | None => Some (Normal None, store)
  | Some address =>
      match fuel with
      | 0 => None
      | S fuel' =>
          match store !! address with
          | None => Some (Throw "TypeError", store)
          | Some object =>
              let variables := obj_variables object in
              let variable :=
                variables ≫=
                  find (λ v, bool_decide (id_name (var_id v) = name)) in
              match variable with
              | Some v => Some (Normal (Some v), store)
              | None => getVariable_loop fuel' name (obj_parent object) store
              end
          end
      end
  end.

(** The object at [address] and the objects its [parent] references lead
    to are the parent chain of [element]. *)
Fixpoint represents (store : gmap nat NodeObject) (address : nat)
    (element : VElement) : Prop :=
  ∃ object,
    store !! address = Some object ∧
    obj_variables object = el_variables element ∧
    match el_parent element with
    | None => obj_parent object = None
    | Some parent =>
        ∃ address', obj_parent object = Some address' ∧
          represents store address' parent
    end.

(** The chain of [ex_input] as objects: the [input] at 3, the [li] at 2,
    the [ul] at 1 and the [template] at 0. *)
Definition ex_store : gmap nat NodeObject :=
  {[ 0 := {| obj_variables := Some []; obj_parent := None |};
     1 := {| obj_variables := Some []; obj_parent := Some 0 |};
     2 := {| obj_variables := Some [var_item; var_i]; obj_parent := Some 1 |};
     3 := {| obj_variables := Some []; obj_parent := Some 2 |} ]}.

(** ** The order of the checks *)

(** The position, in the visitor, of the check whose message a report
    carries (0 for a message of no check). *)
Definition check_rank (r : Report) : nat :=
  let m := message r in
  if bool_decide (m = "'v-model' directives aren't supported on <{{name}}> elements.") then 1
  else if bool_decide (m = "'v-model' directives don't support dynamic input types.") then 2
  else if bool_decide (m = "'v-model' directives don't support 'file' input type.") then 3
  else if bool_decide (m = "'v-model' directives require no argument.") then 4
  else if bool_decide (m = "'v-model' directives don't support the modifier '{{name}}'.") then 5
  else if bool_decide (m = "'v-model' directives require that attribute value.") then 6
  else if bool_decide (m = "'v-model' directives require the attribute value which is valid as LHS.") then 7
  else if bool_decide (m = "'v-model' directives cannot update the iteration variable 'x' itself.") then 8
  else 0.

(** Reports in the order of the checks. *)
Definition in_check_order (rs : list Report) : Prop :=
  StronglySorted (λ r1 r2, (check_rank r1 ≤ check_rank r2)%nat) rs.

(** Reports whose checks lie between two positions. *)
Definition ranks_within (lo hi : nat) (rs : list Report) : Prop :=
  Forall (λ r, (lo ≤ check_rank r ≤ hi)%nat) rs.

(** ** Further example templates *)

(** Helpers for which a value without an expression counts as missing. *)
Definition ex_utils_strict : Utils := {|
  isCustomComponent := isCustomComponent ex_utils;
  hasDirective := hasDirective ex_utils;
  hasAttribute := hasAttribute ex_utils;
  hasAttributeValue := λ node,
    match attr_value node with
    | Some value => bool_decide (expression value ≠ None)
    | None => false
    end
|}.

(** [<li v-for="(item, i) in items" v-model="item">] *)
Definition li_item : VAttribute := v_model ex_li None [] (Some value_item).

(** A plain attribute, [<input type="file">], as the traversal meets it. *)
Definition plain_attribute : VAttribute :=
  {| directive := false;
     attr_key := {| key_name := "type"; key_argument := None;
                    key_modifiers := [] |};
     attr_value := None;
     attr_element := ex_file_input;
     attr_loc := ex_loc |}.

(** ** Rules that complete normally *)

Section Emits.
Implicit Types (m k : Rule unit) (rs : list Report).

Lemma emits_mret : emits (mret tt) [].
Proof. intros reports. by rewrite app_nil_r. Qed.

Lemma emits_report descriptor : emits (report descriptor) [descriptor].
Proof. by intros reports. Qed.

Lemma emits_seq m k rs1 rs2 :
  emits m rs1 → emits k rs2 → emits (m ;; k) (rs1 ++ rs2).
Proof.
  intros Hm Hk reports. unfold mbind, rule_bind.
  by rewrite Hm, Hk, app_assoc.
Qed.

Lemma emits_lift {A} (c : Completion A) (a : A) (k : A → Rule unit) rs :
  c = Normal a → emits (k a) rs → emits (x ← lift c; k x) rs.
Proof. intros -> Hk reports. unfold mbind, rule_bind, lift. apply Hk. Qed.

Lemma emits_when (c : bool) m rs :
  emits m rs → emits (when c m) (if c then rs else []).
Proof. destruct c; [done | intros _; apply emits_mret]. Qed.

Lemma emits_for_of {A} (xs : list A) (body : A → Rule unit)
    (f : A → list Report) :
  (∀ x, emits (body x) (f x)) → emits (for_of xs body) (xs ≫= f).
Proof.
  intros Hbody. induction xs as [|x xs IH]; simpl.
  - apply emits_mret.
  - apply emits_seq; [apply Hbody | apply IH].
Qed.

Lemma emits_reports_of m rs : emits m rs → reports_of m = Normal rs.
Proof. intros Hm. unfold reports_of. by rewrite Hm. Qed.
End Emits.

(** A loop that reports at most once per element reports once per element
    of the filtered list, in order. *)
Lemma bind_if_filter {A B} (P : A → Prop) `{!∀ x, Decision (P x)}
    (f : A → B) (xs : list A) :
  xs ≫= (λ x, if bool_decide (P x) then [f x] else []) = f <$> filter P xs.
Proof.
  induction xs as [|x xs IH]; [done |].
  rewrite filter_cons. cbn. rewrite IH.
  by destruct (decide (P x));
    [rewrite bool_decide_eq_true_2 | rewrite bool_decide_eq_false_2].
Qed.

(** ** What the helpers compute *)

Lemma isLhs_total (node : option Expression) :
  isLhs node = Normal (is_lhs node).
Proof. destruct node as [[]|]; reflexivity. Qed.

(** ** What the visitor reports *)

Section Visitor.
Context (utils : Utils) (node : VAttribute).

Lemma emits_modifier_loop :
  emits
    (for_of (key_modifiers (attr_key node)) (λ modifier,
       when (negb (bool_decide (modifier ∈ VALID_MODIFIERS)))
         (report (UnsupportedModifier node modifier))))
    (modifier_reports node).
Proof.
  unfold modifier_reports.
  rewrite <- (bind_if_filter (λ modifier, modifier ∉ VALID_MODIFIERS)).
  apply emits_for_of. intros modifier. rewrite bool_decide_not.
  apply emits_when, emits_report.
Qed.

Lemma emits_reference_loop (refs : list Reference) :
  emits
    (for_of refs (λ reference,
       let id := ref_id reference in
       if bool_decide (p_type (id_parent id) = "MemberExpression")
       then mret tt
       else
         let variable := getVariable (id_name id) (attr_element node) in
         when (bool_decide (variable ≠ None))
           (report (SelfAliasing node))))
    ((λ _, SelfAliasing node) <$> filter (reported (attr_element node)) refs).
Proof.
  rewrite <- bind_if_filter. apply emits_for_of. intros reference. cbn.
  case_bool_decide as Hparent.
  - rewrite bool_decide_eq_false_2 by (intros [? _]; done).
    apply emits_mret.
  - case_bool_decide as Hvariable.
    + rewrite bool_decide_eq_true_2 by done. apply emits_report.
    + rewrite bool_decide_eq_false_2 by (intros [_ ?]; done).
      apply emits_mret.
Qed.

Lemma emits_VAttribute_model :
  emits (VAttribute_model utils node) (findings utils node).
Proof.
  unfold VAttribute_model, findings.
  apply emits_seq.
  { unfold host_reports. destruct (isValidElement _ _); cbn;
      [apply emits_mret | apply emits_report]. }
  apply emits_seq.
  { unfold input_type_reports. apply emits_when, emits_seq;
      apply emits_when, emits_report. }
  apply emits_seq; [apply emits_when, emits_report |].
  apply emits_seq; [apply emits_modifier_loop |].
  apply emits_seq.
  { unfold missing_value_reports. destruct (hasAttributeValue _ _); cbn;
      [apply emits_mret | apply emits_report]. }
  unfold value_reports. destruct (attr_value node) as [value|]; cbn.
  - eapply emits_lift; [reflexivity |].
    eapply emits_lift; [apply isLhs_total |].
    apply emits_seq.
    { destruct (is_lhs _); cbn; [apply emits_mret | apply emits_report]. }
    eapply emits_lift; [reflexivity |].
    apply emits_reference_loop.
  - apply emits_mret.
Qed.

(** On a [v-model] directive the rule completes normally with exactly
    the reports [findings]. *)
Lemma create_reports :
  selector node = true →
  reports_of (create utils node) = Normal (findings utils node).
Proof.
  intros Hsel. apply emits_reports_of. unfold create. rewrite Hsel.
  apply emits_VAttribute_model.
Qed.
End Visitor.

(** ** Membership in the reports of a run *)

Section Findings.
Context (utils : Utils) (node : VAttribute).
Implicit Types (r : Report).

Lemma elem_of_host_reports r :
  r ∈ host_reports utils node ↔
  r = UnsupportedHost node ∧
  isValidElement utils (attr_element node) = false.
Proof. unfold host_reports. destruct (isValidElement _ _); block_solver. Qed.

Lemma elem_of_input_type_reports r :
  r ∈ input_type_reports utils node ↔
  el_name (attr_element node) = "input" ∧
  (r = DynamicInputType node ∧
     hasDirective utils (attr_element node) "bind" "type" = true ∨
   r = FileInputType node ∧
     hasAttribute utils (attr_element node) "type" "file" = true).
Proof.
  unfold input_type_reports. case_bool_decide as Hname.
  - destruct (hasDirective _ _ _ _), (hasAttribute _ _ _ _); block_solver.
  - block_solver.
Qed.

Lemma elem_of_argument_reports r :
  r ∈ argument_reports node ↔
  r = UnexpectedArgument node ∧ truthy (key_argument (attr_key node)) = true.
Proof. unfold argument_reports. destruct (truthy _); block_solver. Qed.

Lemma elem_of_modifier_reports r :
  r ∈ modifier_reports node ↔
  ∃ modifier, r = UnsupportedModifier node modifier ∧
    modifier ∈ key_modifiers (attr_key node) ∧ modifier ∉ VALID_MODIFIERS.
Proof.
  unfold modifier_reports. rewrite list_elem_of_fmap.
  split; intros (modifier & Hr & Hm); exists modifier; split; try done.
  - apply list_elem_of_filter in Hm as [? ?]. done.
  - apply list_elem_of_filter. destruct Hm. done.
Qed.

Lemma elem_of_missing_value_reports r :
  r ∈ missing_value_reports utils node ↔
  r = MissingValue node ∧ hasAttributeValue utils node = false.
Proof.
  unfold missing_value_reports. destruct (hasAttributeValue _ _); block_solver.
Qed.

Lemma elem_of_value_reports r :
  r ∈ value_reports node ↔
  ∃ value, attr_value node = Some value ∧
    (r = InvalidLhs node ∧ is_lhs (expression value) = false ∨
     r = SelfAliasing node ∧
       ∃ reference, reference ∈ references value ∧
         reported (attr_element node) reference).
Proof.
  unfold value_reports. destruct (attr_value node) as [value|].
  - assert (r ∈ (λ _, SelfAliasing node) <$>
              filter (reported (attr_element node)) (references value) ↔
            r = SelfAliasing node ∧
            ∃ reference, reference ∈ references value ∧
              reported (attr_element node) reference) as Hloop.
    { rewrite list_elem_of_fmap. split.
      - intros (reference & -> & Href).
        apply list_elem_of_filter in Href as [? ?]. eauto.
      - intros (-> & reference & ? & ?). exists reference.
        split; [done |]. by apply list_elem_of_filter. }
    rewrite elem_of_app, Hloop. split.
    + intros [Hlhs | Hself]; exists value; split; try done.
      * destruct (is_lhs _); [by apply elem_of_nil in Hlhs |].
        apply list_elem_of_singleton in Hlhs. by left.
      * by right.
    + intros (value' & [= <-] & [[-> Hlhs] | Hself]); [left | by right].
      rewrite Hlhs. by apply list_elem_of_singleton.
  - rewrite elem_of_nil. split; [done | intros (? & ? & _); done].
Qed.

Lemma elem_of_findings r :
  r ∈ findings utils node ↔
  r ∈ host_reports utils node ∨ r ∈ input_type_reports utils node ∨
  r ∈ argument_reports node ∨ r ∈ modifier_reports node ∨
  r ∈ missing_value_reports utils node ∨ r ∈ value_reports node.
Proof. unfold findings. by rewrite !elem_of_app. Qed.
End Findings.

(** Selecting the reports that carry one message. *)
Lemma filter_message_none (msg : string) (rs : list Report) :
  (∀ r, r ∈ rs → message r ≠ msg) → filter (λ r, message r = msg) rs = [].
Proof.
  induction rs as [|r rs IH]; intros Hrs; [done |].
  rewrite filter_cons_False by (apply Hrs; left).
  apply IH. intros r' Hr'. apply Hrs. by right.
Qed.

Lemma filter_message_all (msg : string) (rs : list Report) :
  (∀ r, r ∈ rs → message r = msg) → filter (λ r, message r = msg) rs = rs.
Proof.
  induction rs as [|r rs IH]; intros Hrs; [done |].
  rewrite filter_cons_True by (apply Hrs; left).
  f_equal. apply IH. intros r' Hr'. apply Hrs. by right.
Qed.

Section Findings_inversion.
Context (utils : Utils) (node : VAttribute).

(** Every report of a run is one of the eight descriptors, made under
    the guard of its block. *)
Lemma elem_of_findings_iff (r : Report) :
  r ∈ findings utils node ↔
  (r = UnsupportedHost node ∧
     isValidElement utils (attr_element node) = false) ∨
  (r = DynamicInputType node ∧ el_name (attr_element node) = "input" ∧
     hasDirective utils (attr_element node) "bind" "type" = true) ∨
  (r = FileInputType node ∧ el_name (attr_element node) = "input" ∧
     hasAttribute utils (attr_element node) "type" "file" = true) ∨
  (r = UnexpectedArgument node ∧
     truthy (key_argument (attr_key node)) = true) ∨
  (∃ modifier, r = UnsupportedModifier node modifier ∧
     modifier ∈ key_modifiers (attr_key node) ∧
     modifier ∉ VALID_MODIFIERS) ∨
  (r = MissingValue node ∧ hasAttributeValue utils node = false) ∨
  (r = InvalidLhs node ∧
     ∃ value, attr_value node = Some value ∧
       is_lhs (expression value) = false) ∨
  (r = SelfAliasing node ∧
     ∃ value reference, attr_value node = Some value ∧
       reference ∈ references value ∧
       reported (attr_element node) reference).
Proof.
  rewrite elem_of_findings, elem_of_host_reports, elem_of_input_type_reports,
    elem_of_argument_reports, elem_of_modifier_reports,
    elem_of_missing_value_reports, elem_of_value_reports.
  split.
  - intros [?|[(? & [[? ?]|[? ?]])|[?|[?|[?|(value & ? & [[? ?]|[? (reference & ? & ?)]])]]]]].
    + by left.
    + right; left. done.
    + right; right; left. done.
    + right; right; right; left. done.
    + right; right; right; right; left. done.
    + right; right; right; right; right; left. done.
    + right; right; right; right; right; right; left. eauto.
    + right; right; right; right; right; right; right. eauto 6.
  - intros [?|[(? & ? & ?)|[(? & ? & ?)|[?|[?|[?|[(? & value & ? & ?)|(? & value & reference & ? & ? & ?)]]]]]]].
    + by left.
    + right; left. eauto.
    + right; left. eauto.
    + right; right; left. done.
    + right; right; right; left. done.
    + right; right; right; right; left. done.
    + right; right; right; right; right. exists value. eauto.
    + right; right; right; right; right. exists value. eauto 6.
Qed.
End Findings_inversion.

(** ** Reports by message *)

(** The allow-set, spelled out. *)
Lemma elem_of_VALID_MODIFIERS (modifier : string) :
  modifier ∈ VALID_MODIFIERS ↔ modifier ∈ ["lazy"; "number"; "trim"].
Proof.
  unfold VALID_MODIFIERS.
  rewrite !elem_of_union, !elem_of_singleton, !elem_of_cons, elem_of_nil.
  tauto.
Qed.

Section Findings_by_message.
Context (utils : Utils) (node : VAttribute).

(** The reports of a run that carry the modifier message are those of
    the loop over [key.modifiers]. *)
Lemma filter_findings_modifier :
  filter (λ r, message r = message (UnsupportedModifier node ""))
    (findings utils node) = modifier_reports node.
Proof.
  unfold findings. rewrite !filter_app.
  rewrite (filter_message_none _ (host_reports utils node)),
    (filter_message_none _ (input_type_reports utils node)),
    (filter_message_none _ (argument_reports node)),
    (filter_message_all _ (modifier_reports node)),
    (filter_message_none _ (missing_value_reports utils node)),
    (filter_message_none _ (value_reports node)).
  - by rewrite app_nil_r.
  - by intros r (value & _ & [[-> _] | [-> _]])%elem_of_value_reports.
  - by intros r [-> _]%elem_of_missing_value_reports.
  - by intros r (modifier & -> & _)%elem_of_modifier_reports.
  - by intros r [-> _]%elem_of_argument_reports.
  - by intros r (_ & [[-> _] | [-> _]])%elem_of_input_type_reports.
  - by intros r [-> _]%elem_of_host_reports.
Qed.

(** The reports of a run that carry the iteration-variable message are
    those of the loop over [value.references]. *)
Lemma filter_findings_self_aliasing :
  filter (λ r, message r = message (SelfAliasing node))
    (findings utils node) =
  match attr_value node with
  | Some value =>
      (λ _, SelfAliasing node) <$>
        filter (reported (attr_element node)) (references value)
  | None => []
  end.
Proof.
  unfold findings. rewrite !filter_app.
  rewrite (filter_message_none _ (host_reports utils node)),
    (filter_message_none _ (input_type_reports utils node)),
    (filter_message_none _ (argument_reports node)),
    (filter_message_none _ (modifier_reports node)),
    (filter_message_none _ (missing_value_reports utils node)).
  - cbn. unfold value_reports. destruct (attr_value node) as [value|]; [|done].
    rewrite filter_app, filter_message_none, filter_message_all; [done | |].
    + by intros r (? & -> & _)%list_elem_of_fmap.
    + intros r Hr. destruct (is_lhs _); [by apply elem_of_nil in Hr |].
      by apply list_elem_of_singleton in Hr as ->.
  - by intros r [-> _]%elem_of_missing_value_reports.
  - by intros r (modifier & -> & _)%elem_of_modifier_reports.
  - by intros r [-> _]%elem_of_argument_reports.
  - by intros r (_ & [[-> _] | [-> _]])%elem_of_input_type_reports.
  - by intros r [-> _]%elem_of_host_reports.
Qed.
End Findings_by_message.

(** ** The scope walk *)

(** Induction along the parent chain. *)
Lemma VElement_parent_ind (P : VElement → Prop) :
  (∀ name attributes variables,
     P (mkVElement name attributes variables None)) →
  (∀ name attributes variables parent,
     P parent → P (mkVElement name attributes variables (Some parent))) →
  ∀ element, P element.
Proof.
  intros Hroot Hchild. fix IH 1.
  intros [name attributes variables [parent|]].
  - apply Hchild, IH.
  - apply Hroot.
Qed.

Lemma find_app_first {A} (f : A → bool) (l1 l2 : list A) :
  find f (l1 ++ l2) =
    match find f l1 with
    | Some x => Some x
    | None => find f l2
    end.
Proof.
  induction l1 as [|x l1 IH]; [done |]. cbn. by destruct (f x).
Qed.

Lemma find_None_iff {A} (f : A → bool) (l : list A) :
  find f l = None ↔ ∀ x, x ∈ l → f x = false.
Proof.
  induction l as [|x l IH]; cbn.
  - split; [intros _ x Hx; by apply elem_of_nil in Hx | done].
  - destruct (f x) eqn:Hfx.
    + split; [done | intros Hall]. specialize (Hall x). rewrite Hfx in Hall.
      discriminate Hall. left.
    + rewrite IH. split.
      * intros Hall y [-> | Hy]%elem_of_cons; [done | by apply Hall].
      * intros Hall y Hy. apply Hall. by right.
Qed.

Lemma find_Some_elem {A} (f : A → bool) (l : list A) (x : A) :
  find f l = Some x → x ∈ l ∧ f x = true.
Proof.
  induction l as [|y l IH]; cbn; [done |].
  destruct (f y) eqn:Hfy.
  - intros [= ->]. split; [left | done].
  - intros [Hx ?]%IH. split; [by right | done].
Qed.

(** The variables in scope at [leafNode], innermost frame first. *)
Lemma getVariable_find (name : string) (leafNode : VElement) :
  getVariable name leafNode =
    find (λ v, bool_decide (id_name (var_id v) = name))
      (scope_chain leafNode ≫= declared).
Proof.
  induction leafNode as [tag attributes variables
                        |tag attributes variables parent IH]
    using VElement_parent_ind.
  - cbn. unfold declared; cbn. destruct variables as [vs|]; cbn; [|done].
    rewrite app_nil_r. by destruct (find _ vs).
  - cbn [scope_chain getVariable el_parent el_variables].
    rewrite bind_cons, find_app_first, <- IH. unfold declared; cbn.
    destruct variables as [vs|]; cbn; [|done]. by destruct (find _ vs).
Qed.

(** The loop over the store follows the parent chain it represents. *)
Lemma getVariable_loop_represents (name : string)
    (store : gmap nat NodeObject) (leafNode : VElement) :
  ∀ address fuel,
    represents store address leafNode →
    (length (scope_chain leafNode) ≤ fuel)%nat →
    getVariable_loop fuel name (Some address) store =
      Some (Normal (getVariable name leafNode), store).
Proof.
  induction leafNode as [tag attributes variables
                        |tag attributes variables parent IH]
    using VElement_parent_ind;
    intros address [|fuel] Hrep Hfuel; cbn in Hfuel; try lia.
  - destruct Hrep as (object & Hobject & Hvariables & Hparent).
    cbn in *. rewrite Hobject, Hvariables, Hparent.
    destruct (variables ≫= find _); [done | by destruct fuel].
  - destruct Hrep as (object & Hobject & Hvariables & address' & Hparent & Hrep).
    cbn in *. rewrite Hobject, Hvariables, Hparent.
    destruct (variables ≫= find _); [done |].
    apply IH; [done | lia].
Qed.

(** The loop hands the store back as it received it. *)
Lemma getVariable_loop_store (name : string) (fuel : nat) :
  ∀ node store result store',
    getVariable_loop fuel name node store = Some (result, store') →
    store' = store.
Proof.
  induction fuel as [|fuel IH]; intros [address|] store result store' Hrun;
    cbn in Hrun; try congruence.
  destruct (store !! address) as [object|]; [|congruence].
  destruct (obj_variables object ≫= find _); [congruence |].
  by eapply IH.
Qed.

(** * The claims *)

(** C1 (as the code has it). On a [v-model] with a value, a reference
    whose identifier hangs directly under a member access, as its object
    or as its computed property, is skipped; every other reference whose
    name resolves from the host element adds one iteration-variable
    finding, in the order of the references; when every resolving
    reference hangs under a member access there is no such finding. *)
Theorem self_aliasing_check (utils : Utils) (node : VAttribute)
    (value : VExpressionContainer) :
  selector node = true →
  attr_value node = Some value →
  ∃ rs, reports_of (create utils node) = Normal rs ∧
    filter (λ r, message r = message (SelfAliasing node)) rs =
      (λ _, SelfAliasing node) <$>
        filter
          (λ reference,
             p_type (id_parent (ref_id reference)) ≠ "MemberExpression" ∧
             getVariable (id_name (ref_id reference)) (attr_element node) ≠ None)
          (references value) ∧
    (∀ reference,
       reference ∈ references value →
       p_type (id_parent (ref_id reference)) ≠ "MemberExpression" →
       getVariable (id_name (ref_id reference)) (attr_element node) ≠ None →
       SelfAliasing node ∈ rs) ∧
    ((∀ reference,
        reference ∈ references value →
        getVariable (id_name (ref_id reference)) (attr_element node) ≠ None →
        p_type (id_parent (ref_id reference)) = "MemberExpression") →
     SelfAliasing node ∉ rs).
Proof.
  intros Hsel Hvalue. exists (findings utils node).
  split; [by apply create_reports |]. split; [| split].
  - rewrite filter_findings_self_aliasing, Hvalue. done.
  - intros reference Hin Hparent Hresolves.
    apply elem_of_findings_iff. do 7 right. split; [done |].
    exists value, reference. done.
  - intros Hskipped H.
    findings_cases H (elem_of_findings_iff utils node); try discriminate H.
    destruct Hguard as [Hparent Hresolves]. apply Hparent.
    apply Hskipped; [congruence | done].
Qed.

Lemma self_aliasing_check_witness :
  selector input_item = true ∧
  attr_value input_item = Some value_item ∧
  ∃ rs, reports_of (create ex_utils input_item) = Normal rs ∧
    filter (λ r, message r = message (SelfAliasing input_item)) rs =
      (λ _, SelfAliasing input_item) <$>
        filter
          (λ reference,
             p_type (id_parent (ref_id reference)) ≠ "MemberExpression" ∧
             getVariable (id_name (ref_id reference)) (attr_element input_item)
               ≠ None)
          (references value_item) ∧
    (∀ reference,
       reference ∈ references value_item →
       p_type (id_parent (ref_id reference)) ≠ "MemberExpression" →
       getVariable (id_name (ref_id reference)) (attr_element input_item)
         ≠ None →
       SelfAliasing input_item ∈ rs) ∧
    ((∀ reference,
        reference ∈ references value_item →
        getVariable (id_name (ref_id reference)) (attr_element input_item)
          ≠ None →
        p_type (id_parent (ref_id reference)) = "MemberExpression") →
     SelfAliasing input_item ∉ rs).
Proof.
  split; [reflexivity |]. split; [reflexivity |].
  apply (self_aliasing_check ex_utils input_item value_item); reflexivity.
Defined.

(** C1, as stated, fails on [<input v-model="items[i]">] under
    [v-for="(item, i) in items"]: the reference [i] is the computed
    property of the member access, not its object, and its name resolves
    to the iteration variable, yet nothing is reported. *)
Lemma self_aliasing_computed_property_counterexample :
  selector input_items_i = true ∧
  attr_value input_items_i = Some value_items_i ∧
  ref_i ∈ references value_items_i ∧
  ¬ (p_type (id_parent (ref_id ref_i)) = "MemberExpression" ∧
     child_key (id_parent (ref_id ref_i)) = "object") ∧
  getVariable (id_name (ref_id ref_i)) (attr_element input_items_i) =
    Some var_i ∧
  reports_of (create ex_utils input_items_i) = Normal [].
Proof.
  split; [reflexivity |]. split; [reflexivity |].
  split; [right; left |]. split; [by intros [_ [=]] |].
  split; reflexivity.
Qed.

(** C2. [getVariable] walks the parent chain from the leaf outwards and
    returns the first variable of that order whose name matches: a
    variable of a frame of the chain with the name looked up; it returns
    [null] exactly when no frame of the chain declares the name.  Run as
    the loop over a store of node objects, it returns that same result
    and leaves every object of the store as it was; whatever the store
    and the reference it starts from, a run that ends hands the store
    back unchanged. *)
Theorem getVariable_first_match (name : string) (leafNode : VElement) :
  (getVariable name leafNode =
     find (λ v, bool_decide (id_name (var_id v) = name))
       (scope_chain leafNode ≫= declared) ∧
   (∀ variable,
      getVariable name leafNode = Some variable →
      id_name (var_id variable) = name ∧
      ∃ frame, frame ∈ scope_chain leafNode ∧ variable ∈ declared frame) ∧
   (getVariable name leafNode = None ↔
    ∀ frame variable,
      frame ∈ scope_chain leafNode → variable ∈ declared frame →
      id_name (var_id variable) ≠ name)) ∧
  (∀ (store : gmap nat NodeObject) (address fuel : nat),
     represents store address leafNode →
     (length (scope_chain leafNode) ≤ fuel)%nat →
     getVariable_loop fuel name (Some address) store =
       Some (Normal (getVariable name leafNode), store)) ∧
  (∀ (fuel : nat) (node : option nat) (store store' : gmap nat NodeObject)
     (result : Completion (option ScopeVariable)),
     getVariable_loop fuel name node store = Some (result, store') →
     store' = store).
Proof.
  split; [| split].
  - split; [apply getVariable_find |]. rewrite getVariable_find. split.
    + intros variable [Hin Hname]%find_Some_elem.
      apply bool_decide_eq_true in Hname. split; [done |].
      apply list_elem_of_bind in Hin as (frame & ? & ?). eauto.
    + rewrite find_None_iff. split.
      * intros Hall frame variable Hframe Hvariable.
        specialize (Hall variable). rewrite bool_decide_eq_false in Hall.
        apply Hall, list_elem_of_bind. eauto.
      * intros Hall variable (frame & ? & ?)%list_elem_of_bind.
        apply bool_decide_eq_false. eauto.
  - intros store address fuel. apply getVariable_loop_represents.
  - intros fuel node store store' result. apply getVariable_loop_store.
Qed.

Lemma getVariable_first_match_witness :
  represents ex_store 3 ex_input ∧
  (length (scope_chain ex_input) ≤ 4)%nat ∧
  getVariable_loop 4 "item" (Some 3) ex_store =
    Some (Normal (Some var_item), ex_store).
Proof.
  assert (represents ex_store 3 ex_input) as Hrep.
  { exists {| obj_variables := Some []; obj_parent := Some 2 |}.
    split; [reflexivity |]. split; [reflexivity |].
    exists 2. split; [reflexivity |].
    exists {| obj_variables := Some [var_item; var_i]; obj_parent := Some 1 |}.
    split; [reflexivity |]. split; [reflexivity |].
    exists 1. split; [reflexivity |].
    exists {| obj_variables := Some []; obj_parent := Some 0 |}.
    split; [reflexivity |]. split; [reflexivity |].
    exists 0. split; [reflexivity |].
    exists {| obj_variables := Some []; obj_parent := None |}.
    split; [reflexivity |]. split; reflexivity. }
  split; [exact Hrep |]. split; [cbn; lia |].
  apply (proj1 (proj2 (getVariable_first_match "item" ex_input))
           ex_store 3 4 Hrep).
  cbn; lia.
Defined.

(** C3. [isValidElement] holds exactly for the native form controls
    [input], [select], [textarea] and for custom components other than
    [keep-alive], [slot], [transition], [transition-group]; a [v-model] on
    any other host reports "aren't supported on <{{name}}> elements" with
    the host's tag name as data, whatever its argument, modifiers and
    value. *)
Theorem isValidElement_unsupported_host (utils : Utils) (element : VElement) :
  (isValidElement utils element = true ↔
     el_name element ∈ ["input"; "select"; "textarea"] ∨
     (isCustomComponent utils element = true ∧
      el_name element ∉ ["keep-alive"; "slot"; "transition"; "transition-group"]))
  ∧
  ∀ node : VAttribute,
    selector node = true →
    attr_element node = element →
    isValidElement utils element = false →
    ∃ rs, reports_of (create utils node) = Normal rs ∧
      {| node := node; loc := attr_loc node;
         message := "'v-model' directives aren't supported on <{{name}}> elements.";
         data := Some [("name", el_name element)] |} ∈ rs.
Proof.
  split.
  - unfold isValidElement. rewrite !orb_true_iff, !andb_true_iff.
    rewrite !negb_true_iff, !bool_decide_eq_true, !bool_decide_eq_false.
    rewrite !elem_of_cons, !elem_of_nil.
    tauto.
  - intros node Hsel <- Hhost. exists (findings utils node).
    split; [by apply create_reports |].
    apply elem_of_findings_iff. left. done.
Qed.

Lemma isValidElement_unsupported_host_witness :
  selector div_foo = true ∧
  attr_element div_foo = ex_div ∧
  isValidElement ex_utils ex_div = false ∧
  ∃ rs, reports_of (create ex_utils div_foo) = Normal rs ∧
    {| node := div_foo; loc := attr_loc div_foo;
       message := "'v-model' directives aren't supported on <{{name}}> elements.";
       data := Some [("name", el_name ex_div)] |} ∈ rs.
Proof.
  split; [reflexivity |]. split; [reflexivity |]. split; [reflexivity |].
  apply (proj2 (isValidElement_unsupported_host ex_utils ex_div) div_foo);
    reflexivity.
Defined.

(** C4. [isLhs] returns [true] on an [Identifier] or a [MemberExpression]
    and [false] on every other expression, and a [v-model] whose value is
    not such an expression reports "require the attribute value which is
    valid as LHS". *)
Theorem isLhs_invalid_lhs (utils : Utils) :
  (∀ node : Expression,
     ∃ b, isLhs (Some node) = Normal b ∧
       (b = true ↔
        (∃ name, node = Identifier name) ∨
        (∃ object property computed,
           node = MemberExpression object property computed)))
  ∧
  ∀ (node : VAttribute) (value : VExpressionContainer),
    selector node = true →
    attr_value node = Some value →
    isLhs (expression value) = Normal false →
    ∃ rs, reports_of (create utils node) = Normal rs ∧
      {| node := node; loc := attr_loc node;
         message := "'v-model' directives require the attribute value which is valid as LHS.";
         data := None |} ∈ rs.
Proof.
  split.
  - intros node. exists (is_lhs (Some node)). split; [apply isLhs_total |].
    destruct node; cbn; split; try done;
      try (intros [[? [=]] | (? & ? & ? & [=])]); eauto.
  - intros node value Hsel Hvalue Hlhs. exists (findings utils node).
    split; [by apply create_reports |].
    rewrite isLhs_total in Hlhs. injection Hlhs as Hlhs.
    apply elem_of_findings_iff. do 6 right. left. eauto.
Qed.

Lemma isLhs_invalid_lhs_witness :
  selector input_call = true ∧
  attr_value input_call = Some value_call ∧
  isLhs (expression value_call) = Normal false ∧
  ∃ rs, reports_of (create ex_utils input_call) = Normal rs ∧
    {| node := input_call; loc := attr_loc input_call;
       message := "'v-model' directives require the attribute value which is valid as LHS.";
       data := None |} ∈ rs.
Proof.
  split; [reflexivity |]. split; [reflexivity |]. split; [reflexivity |].
  apply (proj2 (isLhs_invalid_lhs ex_utils) input_call value_call);
    reflexivity.
Defined.

(** C5. A [v-model] without a value reports "require that attribute
    value", and reports neither the LHS finding nor the iteration-variable
    finding.  [utils.hasAttributeValue] is taken as the spec describes
    it. *)
Theorem missing_value (utils : Utils) (node : VAttribute) :
  selector node = true →
  hasAttributeValue utils node = hasAttributeValue_spec node →
  attr_value node = None →
  ∃ rs, reports_of (create utils node) = Normal rs ∧
    {| node := node; loc := attr_loc node;
       message := "'v-model' directives require that attribute value.";
       data := None |} ∈ rs ∧
    ∀ r, r ∈ rs →
      message r ≠ "'v-model' directives require the attribute value which is valid as LHS." ∧
      message r ≠ "'v-model' directives cannot update the iteration variable 'x' itself.".
Proof.
  intros Hsel Hutils Hvalue. exists (findings utils node).
  split; [by apply create_reports |].
  assert (hasAttributeValue utils node = false) as Hmissing.
  { rewrite Hutils. unfold hasAttributeValue_spec. rewrite Hvalue.
    apply bool_decide_eq_false. by intros [? ?]. }
  split.
  - apply elem_of_findings_iff. do 5 right. left. done.
  - intros r H.
    findings_cases H (elem_of_findings_iff utils node); subst r;
      try (split; discriminate); congruence.
Qed.

Lemma missing_value_witness :
  selector input_no_value = true ∧
  hasAttributeValue ex_utils input_no_value =
    hasAttributeValue_spec input_no_value ∧
  attr_value input_no_value = None ∧
  ∃ rs, reports_of (create ex_utils input_no_value) = Normal rs ∧
    {| node := input_no_value; loc := attr_loc input_no_value;
       message := "'v-model' directives require that attribute value.";
       data := None |} ∈ rs ∧
    ∀ r, r ∈ rs →
      message r ≠ "'v-model' directives require the attribute value which is valid as LHS." ∧
      message r ≠ "'v-model' directives cannot update the iteration variable 'x' itself.".
Proof.
  split; [reflexivity |]. split; [reflexivity |]. split; [reflexivity |].
  apply (missing_value ex_utils input_no_value); reflexivity.
Defined.

(** C6. Every modifier of [key.modifiers] outside [lazy], [number],
    [trim] reports "don't support the modifier" with that modifier as
    data: one report per occurrence, in the order of the modifiers,
    repeated when the modifier is repeated; the three allowed modifiers
    report nothing. *)
Theorem unsupported_modifiers (utils : Utils) (node : VAttribute) :
  selector node = true →
  ∃ rs, reports_of (create utils node) = Normal rs ∧
    filter (λ r, message r =
                   "'v-model' directives don't support the modifier '{{name}}'.")
      rs =
    (λ modifier,
       {| node := node; loc := attr_loc node;
          message := "'v-model' directives don't support the modifier '{{name}}'.";
          data := Some [("name", modifier)] |}) <$>
      filter (λ modifier, modifier ∉ ["lazy"; "number"; "trim"])
        (key_modifiers (attr_key node)).
Proof.
  intros Hsel. exists (findings utils node).
  split; [by apply create_reports |].
  etrans; [apply filter_findings_modifier |]. unfold modifier_reports.
  f_equal. apply list_filter_iff. intros modifier.
  by rewrite elem_of_VALID_MODIFIERS.
Qed.

Lemma unsupported_modifiers_witness :
  selector input_modifiers = true ∧
  ∃ rs, reports_of (create ex_utils input_modifiers) = Normal rs ∧
    filter (λ r, message r =
                   "'v-model' directives don't support the modifier '{{name}}'.")
      rs =
    (λ modifier,
       {| node := input_modifiers; loc := attr_loc input_modifiers;
          message := "'v-model' directives don't support the modifier '{{name}}'.";
          data := Some [("name", modifier)] |}) <$>
      filter (λ modifier, modifier ∉ ["lazy"; "number"; "trim"])
        (key_modifiers (attr_key input_modifiers)).
Proof.
  split; [reflexivity |].
  apply (unsupported_modifiers ex_utils input_modifiers). reflexivity.
Defined.

(** C7. The input-type checks run only on an [input] host: there, a
    dynamically bound type ([hasDirective(element, 'bind', 'type')])
    reports "don't support dynamic input types" and a literal
    [type="file"] ([hasAttribute(element, 'type', 'file')]) reports "don't
    support 'file' input type", each with the tag name as data and under
    no other condition; on any other tag no report carries either
    message. *)
Theorem input_type_checks (utils : Utils) (node : VAttribute) :
  selector node = true →
  ∃ rs, reports_of (create utils node) = Normal rs ∧
    ({| node := node; loc := attr_loc node;
        message := "'v-model' directives don't support dynamic input types.";
        data := Some [("name", el_name (attr_element node))] |} ∈ rs ↔
       el_name (attr_element node) = "input" ∧
       hasDirective utils (attr_element node) "bind" "type" = true) ∧
    ({| node := node; loc := attr_loc node;
        message := "'v-model' directives don't support 'file' input type.";
        data := Some [("name", el_name (attr_element node))] |} ∈ rs ↔
       el_name (attr_element node) = "input" ∧
       hasAttribute utils (attr_element node) "type" "file" = true) ∧
    (∀ r, r ∈ rs →
       message r = "'v-model' directives don't support dynamic input types." →
       el_name (attr_element node) = "input" ∧
       hasDirective utils (attr_element node) "bind" "type" = true ∧
       data r = Some [("name", el_name (attr_element node))]) ∧
    (∀ r, r ∈ rs →
       message r = "'v-model' directives don't support 'file' input type." →
       el_name (attr_element node) = "input" ∧
       hasAttribute utils (attr_element node) "type" "file" = true ∧
       data r = Some [("name", el_name (attr_element node))]) ∧
    (el_name (attr_element node) ≠ "input" →
       ∀ r, r ∈ rs →
         message r ≠ "'v-model' directives don't support dynamic input types." ∧
         message r ≠ "'v-model' directives don't support 'file' input type.").
Proof.
  intros Hsel. exists (findings utils node).
  split; [by apply create_reports |].
  split; [split | split; [split | split; [| split; [| intros Hother r H0; split]]]].
  - intros H. findings_cases H (elem_of_findings_iff utils node);
      try discriminate H; done.
  - intros [? ?]. apply elem_of_findings_iff. right; left. done.
  - intros H. findings_cases H (elem_of_findings_iff utils node);
      try discriminate H; done.
  - intros [? ?]. apply elem_of_findings_iff. right; right; left. done.
  - intros r H Hmessage.
    findings_cases H (elem_of_findings_iff utils node); subst r;
      try discriminate Hmessage; done.
  - intros r H Hmessage.
    findings_cases H (elem_of_findings_iff utils node); subst r;
      try discriminate Hmessage; done.
  - findings_cases H0 (elem_of_findings_iff utils node); subst r; done.
  - findings_cases H0 (elem_of_findings_iff utils node); subst r; done.
Qed.

Lemma input_type_checks_witness :
  selector file_input_foo = true ∧
  ∃ rs, reports_of (create ex_utils file_input_foo) = Normal rs ∧
    ({| node := file_input_foo; loc := attr_loc file_input_foo;
        message := "'v-model' directives don't support dynamic input types.";
        data := Some [("name", el_name (attr_element file_input_foo))] |} ∈ rs ↔
       el_name (attr_element file_input_foo) = "input" ∧
       hasDirective ex_utils (attr_element file_input_foo) "bind" "type" = true) ∧
    ({| node := file_input_foo; loc := attr_loc file_input_foo;
        message := "'v-model' directives don't support 'file' input type.";
        data := Some [("name", el_name (attr_element file_input_foo))] |} ∈ rs ↔
       el_name (attr_element file_input_foo) = "input" ∧
       hasAttribute ex_utils (attr_element file_input_foo) "type" "file" = true) ∧
    (∀ r, r ∈ rs →
       message r = "'v-model' directives don't support dynamic input types." →
       el_name (attr_element file_input_foo) = "input" ∧
       hasDirective ex_utils (attr_element file_input_foo) "bind" "type" = true ∧
       data r = Some [("name", el_name (attr_element file_input_foo))]) ∧
    (∀ r, r ∈ rs →
       message r = "'v-model' directives don't support 'file' input type." →
       el_name (attr_element file_input_foo) = "input" ∧
       hasAttribute ex_utils (attr_element file_input_foo) "type" "file" = true ∧
       data r = Some [("name", el_name (attr_element file_input_foo))]) ∧
    (el_name (attr_element file_input_foo) ≠ "input" →
       ∀ r, r ∈ rs →
         message r ≠ "'v-model' directives don't support dynamic input types." ∧
         message r ≠ "'v-model' directives don't support 'file' input type.").
Proof.
  split; [reflexivity |].
  apply (input_type_checks ex_utils file_input_foo). reflexivity.
Defined.

(** C8 (as the code has it). A [v-model] reports "require no argument"
    exactly when [key.argument] is truthy, that is non-null and not the
    empty string, independently of modifiers and value; a null argument
    never reports it. *)
Theorem unexpected_argument (utils : Utils) (node : VAttribute) :
  selector node = true →
  ∃ rs, reports_of (create utils node) = Normal rs ∧
    ({| node := node; loc := attr_loc node;
        message := "'v-model' directives require no argument.";
        data := None |} ∈ rs ↔
     ∃ argument, key_argument (attr_key node) = Some argument ∧ argument ≠ "").
Proof.
  intros Hsel. exists (findings utils node).
  split; [by apply create_reports |].
  assert (truthy (key_argument (attr_key node)) = true ↔
          ∃ argument, key_argument (attr_key node) = Some argument ∧
            argument ≠ "") as Htruthy.
  { destruct (key_argument _) as [argument|]; cbn.
    - rewrite negb_true_iff, bool_decide_eq_false. split.
      + intros Hne. by exists argument.
      + by intros (? & [= <-] & ?).
    - split; [done | by intros (? & ? & _)]. }
  rewrite <- Htruthy. split.
  - intros H. findings_cases H (elem_of_findings_iff utils node);
      try discriminate H; done.
  - intros Harg. apply elem_of_findings_iff. do 3 right. left. done.
Qed.

Lemma unexpected_argument_witness :
  selector input_arg_aaa = true ∧
  ∃ rs, reports_of (create ex_utils input_arg_aaa) = Normal rs ∧
    ({| node := input_arg_aaa; loc := attr_loc input_arg_aaa;
        message := "'v-model' directives require no argument.";
        data := None |} ∈ rs ↔
     ∃ argument,
       key_argument (attr_key input_arg_aaa) = Some argument ∧ argument ≠ "").
Proof.
  split; [reflexivity |].
  apply (unexpected_argument ex_utils input_arg_aaa). reflexivity.
Defined.

(** C8, as stated, fails on [<input v-model:="foo">]: the argument is the
    empty string, which is not null, and nothing is reported. *)
Lemma unexpected_argument_empty_counterexample :
  selector input_arg_empty = true ∧
  key_argument (attr_key input_arg_empty) = Some "" ∧
  key_argument (attr_key input_arg_empty) ≠ None ∧
  reports_of (create ex_utils input_arg_empty) = Normal [].
Proof.
  split; [reflexivity |]. split; [reflexivity |]. split; [discriminate |].
  reflexivity.
Qed.

(** C9. A reference that is not skipped and resolves to a variable,
    whatever the variable, is reported with the fixed text ending in
    "the iteration variable 'x' itself." and no data; every report of the
    run is that descriptor or carries the message of another check. *)
Theorem self_aliasing_message (utils : Utils) (node : VAttribute)
    (value : VExpressionContainer) (reference : Reference)
    (variable : ScopeVariable) :
  selector node = true →
  attr_value node = Some value →
  reference ∈ references value →
  p_type (id_parent (ref_id reference)) ≠ "MemberExpression" →
  getVariable (id_name (ref_id reference)) (attr_element node) = Some variable →
  ∃ rs, reports_of (create utils node) = Normal rs ∧
    {| node := node; loc := attr_loc node;
       message := "'v-model' directives cannot update the iteration variable 'x' itself.";
       data := None |} ∈ rs ∧
    ∀ r, r ∈ rs →
      r = {| node := node; loc := attr_loc node;
             message := "'v-model' directives cannot update the iteration variable 'x' itself.";
             data := None |} ∨
      message r ∈
        ["'v-model' directives aren't supported on <{{name}}> elements.";
         "'v-model' directives don't support dynamic input types.";
         "'v-model' directives don't support 'file' input type.";
         "'v-model' directives require no argument.";
         "'v-model' directives don't support the modifier '{{name}}'.";
         "'v-model' directives require that attribute value.";
         "'v-model' directives require the attribute value which is valid as LHS."].
Proof.
  intros Hsel Hvalue Hin Hparent Hresolves. exists (findings utils node).
  split; [by apply create_reports |]. split.
  - apply elem_of_findings_iff. do 7 right. split; [done |].
    exists value, reference. repeat split; try done. by rewrite Hresolves.
  - intros r H.
    findings_cases H (elem_of_findings_iff utils node); subst r;
      [right; cbn; rewrite !elem_of_cons; tauto .. | by left].
Qed.

Lemma self_aliasing_message_witness :
  selector input_item = true ∧
  attr_value input_item = Some value_item ∧
  {| ref_id := ident "item" "VExpressionContainer" "expression" |}
    ∈ references value_item ∧
  "VExpressionContainer" ≠ "MemberExpression" ∧
  getVariable "item" (attr_element input_item) = Some var_item ∧
  ∃ rs, reports_of (create ex_utils input_item) = Normal rs ∧
    {| node := input_item; loc := attr_loc input_item;
       message := "'v-model' directives cannot update the iteration variable 'x' itself.";
       data := None |} ∈ rs ∧
    ∀ r, r ∈ rs →
      r = {| node := input_item; loc := attr_loc input_item;
             message := "'v-model' directives cannot update the iteration variable 'x' itself.";
             data := None |} ∨
      message r ∈
        ["'v-model' directives aren't supported on <{{name}}> elements.";
         "'v-model' directives don't support dynamic input types.";
         "'v-model' directives don't support 'file' input type.";
         "'v-model' directives require no argument.";
         "'v-model' directives don't support the modifier '{{name}}'.";
         "'v-model' directives require that attribute value.";
         "'v-model' directives require the attribute value which is valid as LHS."].
Proof.
  split; [reflexivity |]. split; [reflexivity |]. split; [left |].
  split; [discriminate |]. split; [reflexivity |].
  apply (self_aliasing_message ex_utils input_item value_item
           {| ref_id := ident "item" "VExpressionContainer" "expression" |}
           var_item);
    [reflexivity | reflexivity | left | discriminate | reflexivity].
Defined.

(** C10. On a value whose expression is [null], [isLhs] returns [false]
    without throwing, and the rule completes normally with the LHS
    finding among its reports. *)
Theorem isLhs_null_expression (utils : Utils) (node : VAttribute)
    (value : VExpressionContainer) :
  selector node = true →
  attr_value node = Some value →
  expression value = None →
  isLhs (expression value) = Normal false ∧
  ∃ rs, reports_of (create utils node) = Normal rs ∧
    {| node := node; loc := attr_loc node;
       message := "'v-model' directives require the attribute value which is valid as LHS.";
       data := None |} ∈ rs.
Proof.
  intros Hsel Hvalue Hexpression. split; [by rewrite Hexpression |].
  exists (findings utils node). split; [by apply create_reports |].
  apply elem_of_findings_iff. do 6 right. left. split; [done |].
  exists value. by rewrite Hexpression.
Qed.

Lemma isLhs_null_expression_witness :
  selector input_empty_value = true ∧
  attr_value input_empty_value = Some value_empty ∧
  expression value_empty = None ∧
  isLhs (expression value_empty) = Normal false ∧
  ∃ rs, reports_of (create ex_utils input_empty_value) = Normal rs ∧
    {| node := input_empty_value; loc := attr_loc input_empty_value;
       message := "'v-model' directives require the attribute value which is valid as LHS.";
       data := None |} ∈ rs.
Proof.
  split; [reflexivity |]. split; [reflexivity |]. split; [reflexivity |].
  apply (isLhs_null_expression ex_utils input_empty_value value_empty);
    reflexivity.
Defined.

(** ** The example templates, evaluated *)

Example getVariable_item :
  getVariable "item" ex_input = Some var_item ∧
  getVariable "i" ex_input = Some var_i ∧
  getVariable "foo" ex_input = None.
Proof. repeat split. Qed.

Example reports_input_foo :
  reports_of (create ex_utils input_foo) = Normal [].
Proof. reflexivity. Qed.

Example reports_div_foo :
  reports_of (create ex_utils div_foo) = Normal [UnsupportedHost div_foo].
Proof. reflexivity. Qed.

Example reports_file_input_foo :
  reports_of (create ex_utils file_input_foo) =
    Normal [DynamicInputType file_input_foo; FileInputType file_input_foo].
Proof. reflexivity. Qed.

Example reports_input_arg_aaa :
  reports_of (create ex_utils input_arg_aaa) =
    Normal [UnexpectedArgument input_arg_aaa].
Proof. reflexivity. Qed.

Example reports_input_modifiers :
  reports_of (create ex_utils input_modifiers) =
    Normal [UnsupportedModifier input_modifiers "aaa";
            UnsupportedModifier input_modifiers "bbb";
            UnsupportedModifier input_modifiers "aaa"].
Proof. vm_compute. reflexivity. Qed.

Example reports_input_no_value :
  reports_of (create ex_utils input_no_value) =
    Normal [MissingValue input_no_value].
Proof. reflexivity. Qed.

Example reports_input_empty_value :
  reports_of (create ex_utils input_empty_value) =
    Normal [InvalidLhs input_empty_value].
Proof. reflexivity. Qed.

Example reports_input_call :
  reports_of (create ex_utils input_call) = Normal [InvalidLhs input_call].
Proof. reflexivity. Qed.

Example reports_input_item :
  reports_of (create ex_utils input_item) = Normal [SelfAliasing input_item].
Proof. reflexivity. Qed.

(** * Further properties of the rule *)

(** ** Runs from any context *)

Lemma create_emits (utils : Utils) (node : VAttribute) :
  emits (create utils node)
    (if selector node then findings utils node else []).
Proof. unfold create. apply emits_when, emits_VAttribute_model. Qed.

(** X1. On every attribute node and from every context the rule completes
    normally: the reports made before stay, in place, and the reports
    appended are those of a run from a fresh context; on a node that the
    selector does not match nothing is appended. *)
Theorem create_appends (utils : Utils) (node : VAttribute)
    (reports : list Report) :
  ∃ rs, reports_of (create utils node) = Normal rs ∧
    create utils node reports = Normal (tt, reports ++ rs) ∧
    (selector node = false → rs = []).
Proof.
  exists (if selector node then findings utils node else []).
  split; [apply emits_reports_of, create_emits |].
  split; [apply create_emits |]. by intros ->.
Qed.

(** X2. Every report of a run is attached to the directive node itself,
    at the directive's location, and its data is absent or is the single
    entry [name]. *)
Theorem reports_at_directive (utils : Utils) (attribute : VAttribute) :
  ∃ rs, reports_of (create utils attribute) = Normal rs ∧
    ∀ r, r ∈ rs →
      node r = attribute ∧ loc r = attr_loc attribute ∧
      (data r = None ∨ ∃ name, data r = Some [("name", name)]).
Proof.
  exists (if selector attribute then findings utils attribute else []).
  split; [apply emits_reports_of, create_emits |].
  intros r H. destruct (selector attribute); [|by apply elem_of_nil in H].
  findings_cases H (elem_of_findings_iff utils attribute); subst r; cbn;
    eauto.
Qed.

(** ** A binding that passes *)

(** Where [isValidElement] holds, by tag and custom component. *)
Lemma isValidElement_true_iff (utils : Utils) (element : VElement) :
  isValidElement utils element = true ↔
  el_name element ∈ ["input"; "select"; "textarea"] ∨
  (isCustomComponent utils element = true ∧
   el_name element ∉ ["keep-alive"; "slot"; "transition"; "transition-group"]).
Proof.
  unfold isValidElement. rewrite !orb_true_iff, !andb_true_iff.
  rewrite !negb_true_iff, !bool_decide_eq_true, !bool_decide_eq_false.
  rewrite !elem_of_cons, !elem_of_nil.
  tauto.
Qed.

(** The expressions on which the assignment-target test holds. *)
Lemma is_lhs_true_iff (node : option Expression) :
  is_lhs node = true ↔
  (∃ name, node = Some (Identifier name)) ∨
  (∃ object property computed,
     node = Some (MemberExpression object property computed)).
Proof.
  destruct node as [[]|]; cbn; split; try done;
    try (intros [[? [=]] | (? & ? & ? & [=])]); eauto.
Qed.

(** X3. A [v-model] passes the rule with no report exactly when the host
    is [input], [select], [textarea] or a custom component other than
    [keep-alive], [slot], [transition], [transition-group], an [input]
    host has neither a bound type nor [type="file"], the argument is null
    or empty, every modifier is one of [lazy], [number], [trim], the
    helper finds the attribute value, and a present value is an
    [Identifier] or a [MemberExpression] all of whose references hang
    under a member access or do not resolve. *)
Theorem no_findings_iff (utils : Utils) (node : VAttribute) :
  selector node = true →
  (reports_of (create utils node) = Normal [] ↔
   (el_name (attr_element node) ∈ ["input"; "select"; "textarea"] ∨
    (isCustomComponent utils (attr_element node) = true ∧
     el_name (attr_element node) ∉
       ["keep-alive"; "slot"; "transition"; "transition-group"])) ∧
   (el_name (attr_element node) = "input" →
      hasDirective utils (attr_element node) "bind" "type" = false ∧
      hasAttribute utils (attr_element node) "type" "file" = false) ∧
   (key_argument (attr_key node) = None ∨
    key_argument (attr_key node) = Some "") ∧
   (∀ modifier, modifier ∈ key_modifiers (attr_key node) →
      modifier ∈ ["lazy"; "number"; "trim"]) ∧
   hasAttributeValue utils node = true ∧
   (∀ value, attr_value node = Some value →
      ((∃ name, expression value = Some (Identifier name)) ∨
       (∃ object property computed,
          expression value =
            Some (MemberExpression object property computed))) ∧
      ∀ reference, reference ∈ references value →
        p_type (id_parent (ref_id reference)) = "MemberExpression" ∨
        getVariable (id_name (ref_id reference)) (attr_element node) = None)).
Proof.
  intros Hsel. rewrite create_reports by done.
  rewrite <- isValidElement_true_iff.
  assert (∀ rs : list Report, Normal rs = Normal [] ↔ rs = []) as Hnormal.
  { intros rs. split; [by intros [= ->] | by intros ->]. }
  split.
  - intros Hnone%Hnormal.
    assert (∀ r, r ∉ findings utils node) as Hclean.
    { intros r. rewrite Hnone. apply not_elem_of_nil. }
    clear Hnone. setoid_rewrite elem_of_findings_iff in Hclean.
    repeat apply conj.
    + destruct (isValidElement _ _) eqn:Hvalid; [done |].
      destruct (Hclean (UnsupportedHost node)). left. done.
    + intros Hname. split.
      * destruct (hasDirective _ _ _ _) eqn:Hdir; [|done].
        destruct (Hclean (DynamicInputType node)). right; left. done.
      * destruct (hasAttribute _ _ _ _) eqn:Hattr; [|done].
        destruct (Hclean (FileInputType node)). do 2 right. left. done.
    + destruct (key_argument _) as [argument|] eqn:Harg; [|by left].
      destruct (decide (argument = "")) as [-> | Hne]; [by right |].
      destruct (Hclean (UnexpectedArgument node)). do 3 right. left.
      split; [done |]. cbn. by rewrite bool_decide_eq_false_2.
    + intros modifier Hin. apply elem_of_VALID_MODIFIERS.
      destruct (decide (modifier ∈ VALID_MODIFIERS)) as [|Hout]; [done |].
      destruct (Hclean (UnsupportedModifier node modifier)).
      do 4 right. left. eauto.
    + destruct (hasAttributeValue _ _) eqn:Hhas; [done |].
      destruct (Hclean (MissingValue node)). do 5 right. left. done.
    + intros value Hvalue. rewrite <- is_lhs_true_iff. split.
      * destruct (is_lhs _) eqn:Hlhs; [done |].
        destruct (Hclean (InvalidLhs node)). do 6 right. left. eauto.
      * intros reference Hin.
        destruct (decide (p_type (id_parent (ref_id reference)) =
                          "MemberExpression")) as [|Hparent]; [by left |].
        destruct (getVariable _ _) eqn:Hresolves; [|by right].
        destruct (Hclean (SelfAliasing node)). do 7 right. split; [done |].
        exists value, reference. repeat split; try done. by rewrite Hresolves.
  - intros (Hvalid & Hinput & Harg & Hmods & Hhas & Hvalue).
    apply Hnormal, elem_of_nil_inv. intros r H.
    findings_cases H (elem_of_findings_iff utils node).
    + congruence.
    + destruct (Hinput Hname). congruence.
    + destruct (Hinput Hname). congruence.
    + by destruct Harg as [Harg | Harg]; rewrite Harg in Hguard.
    + by apply Hguard, elem_of_VALID_MODIFIERS, Hmods.
    + congruence.
    + destruct (Hvalue _ Hvalue0) as [Hlhs _].
      apply is_lhs_true_iff in Hlhs. congruence.
    + destruct (Hvalue _ Hvalue0) as [_ Hrefs].
      destruct Hguard as [Hparent Hresolves].
      by destruct (Hrefs _ Hin).
Qed.

Lemma no_findings_iff_witness :
  selector input_foo = true ∧
  (reports_of (create ex_utils input_foo) = Normal [] ↔
   (el_name (attr_element input_foo) ∈ ["input"; "select"; "textarea"] ∨
    (isCustomComponent ex_utils (attr_element input_foo) = true ∧
     el_name (attr_element input_foo) ∉
       ["keep-alive"; "slot"; "transition"; "transition-group"])) ∧
   (el_name (attr_element input_foo) = "input" →
      hasDirective ex_utils (attr_element input_foo) "bind" "type" = false ∧
      hasAttribute ex_utils (attr_element input_foo) "type" "file" = false) ∧
   (key_argument (attr_key input_foo) = None ∨
    key_argument (attr_key input_foo) = Some "") ∧
   (∀ modifier, modifier ∈ key_modifiers (attr_key input_foo) →
      modifier ∈ ["lazy"; "number"; "trim"]) ∧
   hasAttributeValue ex_utils input_foo = true ∧
   (∀ value, attr_value input_foo = Some value →
      ((∃ name, expression value = Some (Identifier name)) ∨
       (∃ object property computed,
          expression value =
            Some (MemberExpression object property computed))) ∧
      ∀ reference, reference ∈ references value →
        p_type (id_parent (ref_id reference)) = "MemberExpression" ∨
        getVariable (id_name (ref_id reference)) (attr_element input_foo) = None)).
Proof.
  split; [reflexivity |].
  apply (no_findings_iff ex_utils input_foo). reflexivity.
Defined.

(** X4. A run makes at most six reports besides one per modifier and
    one per reference of the value. *)
Theorem report_count_bound (utils : Utils) (node : VAttribute) :
  ∃ rs, reports_of (create utils node) = Normal rs ∧
    (length rs ≤
       6 + length (key_modifiers (attr_key node)) +
       match attr_value node with
       | Some value => length (references value)
       | None => 0
       end)%nat.
Proof.
  exists (if selector node then findings utils node else []).
  split; [apply emits_reports_of, create_emits |].
  destruct (selector node); [|cbn; lia].
  unfold findings. rewrite !length_app.
  assert (length (host_reports utils node) ≤ 1)%nat.
  { unfold host_reports. destruct (isValidElement _ _); cbn; lia. }
  assert (length (input_type_reports utils node) ≤ 2)%nat.
  { unfold input_type_reports.
    destruct (bool_decide _); [|cbn; lia].
    destruct (hasDirective utils _ _ _), (hasAttribute utils _ _ _);
      cbn; lia. }
  assert (length (argument_reports node) ≤ 1)%nat.
  { unfold argument_reports. destruct (truthy _); cbn; lia. }
  assert (length (modifier_reports node) ≤
          length (key_modifiers (attr_key node)))%nat.
  { unfold modifier_reports. rewrite length_fmap. apply length_filter. }
  assert (length (missing_value_reports utils node) ≤ 1)%nat.
  { unfold missing_value_reports. destruct (hasAttributeValue _ _); cbn; lia. }
  assert (length (value_reports node) ≤
          1 + match attr_value node with
              | Some value => length (references value)
              | None => 0
              end)%nat.
  { unfold value_reports. destruct (attr_value node) as [value|]; [|cbn; lia].
    rewrite length_app, length_fmap.
    pose proof (length_filter (reported (attr_element node)) (references value)).
    destruct (is_lhs _); cbn; lia. }
  lia.
Qed.

(** ** The order of the reports *)

Lemma ranks_within_weaken (lo hi lo' hi' : nat) (rs : list Report) :
  (lo' ≤ lo)%nat → (hi ≤ hi')%nat →
  ranks_within lo hi rs → ranks_within lo' hi' rs.
Proof.
  intros Hlo Hhi Hrs. unfold ranks_within in *.
  eapply Forall_impl; [exact Hrs |]. intros r. cbn. lia.
Qed.

Lemma ranks_within_sorted (k : nat) (rs : list Report) :
  ranks_within k k rs → in_check_order rs.
Proof.
  unfold ranks_within, in_check_order.
  induction 1 as [|r rs Hr Hrs IH]; constructor; [done |].
  eapply Forall_impl; [exact Hrs |]. intros r'. cbn. lia.
Qed.

Lemma in_check_order_app (lo1 hi1 lo2 hi2 : nat) (rs1 rs2 : list Report) :
  (hi1 ≤ lo2)%nat → (lo1 ≤ lo2)%nat → (hi1 ≤ hi2)%nat →
  in_check_order rs1 → ranks_within lo1 hi1 rs1 →
  in_check_order rs2 ∧ ranks_within lo2 hi2 rs2 →
  in_check_order (rs1 ++ rs2) ∧ ranks_within lo1 hi2 (rs1 ++ rs2).
Proof.
  intros Hmid Hlo Hhi Hs1 Hr1 [Hs2 Hr2]. split.
  - apply StronglySorted_app_2; [|done..].
    intros r1 r2 Hin1 Hin2. unfold ranks_within in *.
    rewrite Forall_forall in Hr1, Hr2.
    specialize (Hr1 _ Hin1). specialize (Hr2 _ Hin2). cbn in *. lia.
  - apply Forall_app. split.
    + by apply (ranks_within_weaken lo1 hi1).
    + by apply (ranks_within_weaken lo2 hi2).
Qed.

Section Check_order.
Context (utils : Utils) (node : VAttribute).

Lemma host_reports_rank : ranks_within 1 1 (host_reports utils node).
Proof.
  apply Forall_forall. intros r [-> _]%elem_of_host_reports.
  by vm_compute.
Qed.

Lemma input_type_reports_rank :
  in_check_order (input_type_reports utils node) ∧
  ranks_within 2 3 (input_type_reports utils node).
Proof.
  unfold input_type_reports. destruct (bool_decide _).
  - apply (in_check_order_app 2 2 3 3); [lia.. | | |].
    + apply (ranks_within_sorted 2).
      destruct (hasDirective utils _ _ _); repeat constructor.
    + destruct (hasDirective utils _ _ _); repeat constructor.
    + split; [apply (ranks_within_sorted 3) |];
        destruct (hasAttribute utils _ _ _); repeat constructor.
  - split; constructor.
Qed.

Lemma argument_reports_rank : ranks_within 4 4 (argument_reports node).
Proof.
  apply Forall_forall. intros r [-> _]%elem_of_argument_reports.
  by vm_compute.
Qed.

Lemma modifier_reports_rank : ranks_within 5 5 (modifier_reports node).
Proof.
  apply Forall_forall. intros r (modifier & -> & _)%elem_of_modifier_reports.
  by vm_compute.
Qed.

Lemma missing_value_reports_rank :
  ranks_within 6 6 (missing_value_reports utils node).
Proof.
  apply Forall_forall. intros r [-> _]%elem_of_missing_value_reports.
  by vm_compute.
Qed.

Lemma value_reports_rank :
  in_check_order (value_reports node) ∧ ranks_within 7 8 (value_reports node).
Proof.
  unfold value_reports. destruct (attr_value node) as [value|].
  - apply (in_check_order_app 7 7 8 8); [lia.. | | |].
    + apply (ranks_within_sorted 7). destruct (is_lhs _); repeat constructor.
    + destruct (is_lhs _); repeat constructor.
    + assert (ranks_within 8 8
                ((λ _, SelfAliasing node) <$>
                   filter (reported (attr_element node)) (references value)))
        as Hloop.
      { apply Forall_forall. intros r (? & -> & _)%list_elem_of_fmap.
        by vm_compute. }
      split; [by apply (ranks_within_sorted 8) | done].
  - split; constructor.
Qed.

Lemma findings_in_check_order : in_check_order (findings utils node).
Proof.
  unfold findings.
  apply (in_check_order_app 1 1 2 8); [lia.. | | |];
    [apply (ranks_within_sorted 1) | |]; [apply host_reports_rank.. |].
  apply (in_check_order_app 2 3 4 8); [lia.. | | |];
    [apply input_type_reports_rank.. |].
  apply (in_check_order_app 4 4 5 8); [lia.. | | |];
    [apply (ranks_within_sorted 4) | |]; [apply argument_reports_rank.. |].
  apply (in_check_order_app 5 5 6 8); [lia.. | | |];
    [apply (ranks_within_sorted 5) | |]; [apply modifier_reports_rank.. |].
  apply (in_check_order_app 6 6 7 8); [lia.. | | |];
    [apply (ranks_within_sorted 6) | |];
    [apply missing_value_reports_rank.. |].
  apply value_reports_rank.
Qed.
End Check_order.

(** X5. Every report of a run carries the message of one of the eight
    checks, and the reports come in the order of the checks: host,
    dynamic input type, file input type, argument, modifiers, missing
    value, LHS, iteration variable; a report of a later check never
    precedes a report of an earlier one. *)
Theorem reports_in_check_order (utils : Utils) (node : VAttribute) :
  ∃ rs, reports_of (create utils node) = Normal rs ∧
    (∀ r, r ∈ rs → (1 ≤ check_rank r ≤ 8)%nat) ∧
    ∀ i j r1 r2,
      (i < j)%nat → rs !! i = Some r1 → rs !! j = Some r2 →
      (check_rank r1 ≤ check_rank r2)%nat.
Proof.
  exists (if selector node then findings utils node else []).
  split; [apply emits_reports_of, create_emits |].
  destruct (selector node);
    [|split; [by intros r ?%elem_of_nil | by intros i j r1 r2 _ ?]].
  split.
  - intros r H.
    findings_cases H (elem_of_findings_iff utils node); subst r;
      vm_compute; lia.
  - intros i j r1 r2 Hij Hi Hj.
    pose proof (findings_in_check_order utils node) as Hsorted.
    apply (take_drop_middle _ _ _) in Hj as Hsplit. rewrite <- Hsplit in Hsorted.
    apply StronglySorted_app in Hsorted as (Hcross & _ & _).
    apply Hcross; [|left].
    apply list_elem_of_lookup. exists i. rewrite lookup_take_lt by done. done.
Qed.

(** ** Scopes along the parent chain *)

Lemma scope_chain_suffix (leafNode frame : VElement) :
  frame ∈ scope_chain leafNode →
  ∀ outer, outer ∈ scope_chain frame → outer ∈ scope_chain leafNode.
Proof.
  induction leafNode as [tag attributes variables
                        |tag attributes variables parent IH]
    using VElement_parent_ind; cbn.
  - intros ->%list_elem_of_singleton. done.
  - intros [-> | Hframe]%elem_of_cons outer Houter; [done |].
    right. by apply IH.
Qed.

(** X6. A name that resolves from an enclosing node of the parent chain
    also resolves from the leaf: scopes are inherited inwards (the
    variable found may be a nearer one of the same name). *)
Theorem getVariable_inherited (name : string) (leafNode frame : VElement) :
  frame ∈ scope_chain leafNode →
  getVariable name frame ≠ None →
  getVariable name leafNode ≠ None.
Proof.
  intros Hframe Hresolves Hnone. apply Hresolves.
  rewrite getVariable_find in *. rewrite find_None_iff in *.
  intros variable (outer & ? & Houter)%list_elem_of_bind.
  apply Hnone, list_elem_of_bind. exists outer. split; [done |].
  by apply (scope_chain_suffix leafNode frame).
Qed.

Lemma getVariable_inherited_witness :
  ex_li ∈ scope_chain ex_input ∧
  getVariable "item" ex_li ≠ None ∧
  getVariable "item" ex_input ≠ None.
Proof.
  split; [right; left |]. split; [discriminate |].
  apply (getVariable_inherited "item" ex_input ex_li);
    [right; left | discriminate].
Defined.

(** ** Checks and their guards *)

(** X7. The LHS finding is reported exactly when the binding has a value
    whose expression is neither an [Identifier] nor a [MemberExpression]
    (a null expression included); a value that is an identifier or a
    member expression, and a binding without value, never get it. *)
Theorem invalid_lhs_iff (utils : Utils) (node : VAttribute) :
  selector node = true →
  ∃ rs, reports_of (create utils node) = Normal rs ∧
    ({| node := node; loc := attr_loc node;
        message := "'v-model' directives require the attribute value which is valid as LHS.";
        data := None |} ∈ rs ↔
     ∃ value, attr_value node = Some value ∧
       (∀ name, expression value ≠ Some (Identifier name)) ∧
       (∀ object property computed,
          expression value ≠
            Some (MemberExpression object property computed))).
Proof.
  intros Hsel. exists (findings utils node).
  split; [by apply create_reports |].
  assert (∀ value : VExpressionContainer,
            is_lhs (expression value) = false ↔
            (∀ name, expression value ≠ Some (Identifier name)) ∧
            (∀ object property computed,
               expression value ≠
                 Some (MemberExpression object property computed)))
    as Hshape.
  { intros value. rewrite <- not_true_iff_false, is_lhs_true_iff. split.
    - intros Hnot. split; [intros name ? | intros object property computed ?];
        apply Hnot; eauto 6.
    - intros [Hid Hmember] [[name ?] | (object & property & computed & ?)];
        [by eapply Hid | by eapply Hmember]. }
  split.
  - intros H. findings_cases H (elem_of_findings_iff utils node);
      try discriminate H.
    exists value. split; [done |]. by apply Hshape.
  - intros (value & Hvalue & Hnot%Hshape).
    apply elem_of_findings_iff. do 6 right. left. split; [done |]. eauto.
Qed.

Lemma invalid_lhs_iff_witness :
  selector input_call = true ∧
  ∃ rs, reports_of (create ex_utils input_call) = Normal rs ∧
    ({| node := input_call; loc := attr_loc input_call;
        message := "'v-model' directives require the attribute value which is valid as LHS.";
        data := None |} ∈ rs ↔
     ∃ value, attr_value input_call = Some value ∧
       (∀ name, expression value ≠ Some (Identifier name)) ∧
       (∀ object property computed,
          expression value ≠
            Some (MemberExpression object property computed))).
Proof.
  split; [reflexivity |].
  apply (invalid_lhs_iff ex_utils input_call). reflexivity.
Defined.

(** X8. Whatever [utils.isCustomComponent] answers, a [v-model] on
    [input], [select] or [textarea] never gets the host finding, and one
    on [keep-alive], [slot], [transition] or [transition-group] always
    gets it; in general it is reported exactly when [isValidElement] is
    false. *)
Theorem host_finding_by_tag (utils : Utils) (node : VAttribute) :
  selector node = true →
  ∃ rs, reports_of (create utils node) = Normal rs ∧
    (UnsupportedHost node ∈ rs ↔
     isValidElement utils (attr_element node) = false) ∧
    (el_name (attr_element node) ∈ ["input"; "select"; "textarea"] →
     UnsupportedHost node ∉ rs) ∧
    (el_name (attr_element node) ∈
       ["keep-alive"; "slot"; "transition"; "transition-group"] →
     UnsupportedHost node ∈ rs).
Proof.
  intros Hsel. exists (findings utils node).
  split; [by apply create_reports |].
  assert (UnsupportedHost node ∈ findings utils node ↔
          isValidElement utils (attr_element node) = false) as Hiff.
  { split.
    - intros H. findings_cases H (elem_of_findings_iff utils node);
        try discriminate H; done.
    - intros Hhost. apply elem_of_findings_iff. left. done. }
  split; [done |]. rewrite Hiff. unfold isValidElement.
  rewrite !elem_of_cons, !elem_of_nil. split.
  - intros [-> | [-> | [-> | []]]]; done.
  - intros [-> | [-> | [-> | [-> | []]]]]; done.
Qed.

Lemma host_finding_by_tag_witness :
  selector input_foo = true ∧
  ∃ rs, reports_of (create ex_utils input_foo) = Normal rs ∧
    (UnsupportedHost input_foo ∈ rs ↔
     isValidElement ex_utils (attr_element input_foo) = false) ∧
    (el_name (attr_element input_foo) ∈ ["input"; "select"; "textarea"] →
     UnsupportedHost input_foo ∉ rs) ∧
    (el_name (attr_element input_foo) ∈
       ["keep-alive"; "slot"; "transition"; "transition-group"] →
     UnsupportedHost input_foo ∈ rs).
Proof.
  split; [reflexivity |].
  apply (host_finding_by_tag ex_utils input_foo). reflexivity.
Defined.

(** X9. The missing-value finding follows [utils.hasAttributeValue]
    alone, and the checks of the value follow [node.value] alone: when
    the helper answers [false] for a value that is present with a null
    expression, the run reports the missing value and, after it, the LHS
    finding. *)
Theorem missing_value_and_invalid_lhs (utils : Utils) (node : VAttribute)
    (value : VExpressionContainer) :
  selector node = true →
  hasAttributeValue utils node = false →
  attr_value node = Some value →
  expression value = None →
  ∃ rs, reports_of (create utils node) = Normal rs ∧
    ∃ before between after,
      rs = before ++ MissingValue node :: between ++ InvalidLhs node :: after.
Proof.
  intros Hsel Hmissing Hvalue Hexpression. exists (findings utils node).
  split; [by apply create_reports |].
  exists (host_reports utils node ++ input_type_reports utils node ++
          argument_reports node ++ modifier_reports node), [],
    ((λ _, SelfAliasing node) <$>
       filter (reported (attr_element node)) (references value)).
  unfold findings, missing_value_reports, value_reports.
  rewrite Hmissing, Hvalue, Hexpression. cbn. by rewrite <- !app_assoc.
Qed.

Lemma missing_value_and_invalid_lhs_witness :
  selector input_empty_value = true ∧
  hasAttributeValue ex_utils_strict input_empty_value = false ∧
  attr_value input_empty_value = Some value_empty ∧
  expression value_empty = None ∧
  ∃ rs, reports_of (create ex_utils_strict input_empty_value) = Normal rs ∧
    ∃ before between after,
      rs = before ++ MissingValue input_empty_value ::
             between ++ InvalidLhs input_empty_value :: after.
Proof.
  split; [reflexivity |]. split; [reflexivity |]. split; [reflexivity |].
  split; [reflexivity |].
  apply (missing_value_and_invalid_lhs ex_utils_strict input_empty_value
           value_empty); reflexivity.
Defined.

(** X10. The scope walk starts at the host element itself: a reference
    that does not hang under a member access and names a variable that
    the host declares is reported. *)
Theorem self_aliasing_on_declaring_host (utils : Utils) (node : VAttribute)
    (value : VExpressionContainer) (reference : Reference)
    (variables : list ScopeVariable) (variable : ScopeVariable) :
  selector node = true →
  attr_value node = Some value →
  reference ∈ references value →
  p_type (id_parent (ref_id reference)) ≠ "MemberExpression" →
  el_variables (attr_element node) = Some variables →
  variable ∈ variables →
  id_name (var_id variable) = id_name (ref_id reference) →
  ∃ rs, reports_of (create utils node) = Normal rs ∧ SelfAliasing node ∈ rs.
Proof.
  intros Hsel Hvalue Hin Hparent Hvariables Hvariable Hname.
  exists (findings utils node). split; [by apply create_reports |].
  apply elem_of_findings_iff. do 7 right. split; [done |].
  exists value, reference. repeat split; try done.
  rewrite getVariable_find, find_None_iff. intros Hnone.
  specialize (Hnone variable). rewrite bool_decide_eq_false in Hnone.
  apply Hnone; [|done]. apply list_elem_of_bind.
  exists (attr_element node). split.
  - unfold declared. by rewrite Hvariables.
  - destruct (attr_element node). left.
Qed.

Lemma self_aliasing_on_declaring_host_witness :
  selector li_item = true ∧
  attr_value li_item = Some value_item ∧
  {| ref_id := ident "item" "VExpressionContainer" "expression" |}
    ∈ references value_item ∧
  "VExpressionContainer" ≠ "MemberExpression" ∧
  el_variables (attr_element li_item) = Some [var_item; var_i] ∧
  var_item ∈ [var_item; var_i] ∧
  id_name (var_id var_item) = "item" ∧
  ∃ rs, reports_of (create ex_utils li_item) = Normal rs ∧
    SelfAliasing li_item ∈ rs.
Proof.
  split; [reflexivity |]. split; [reflexivity |]. split; [left |].
  split; [discriminate |]. split; [reflexivity |]. split; [left |].
  split; [reflexivity |].
  apply (self_aliasing_on_declaring_host ex_utils li_item value_item
           {| ref_id := ident "item" "VExpressionContainer" "expression" |}
           [var_item; var_i] var_item);
    [reflexivity | reflexivity | left | discriminate | reflexivity | left
    | reflexivity].
Defined.

Lemma create_appends_witness :
  selector plain_attribute = false ∧
  reports_of (create ex_utils plain_attribute) = Normal [] ∧
  create ex_utils plain_attribute [UnsupportedHost div_foo] =
    Normal (tt, [UnsupportedHost div_foo]).
Proof.
  split; [reflexivity |].
  destruct (create_appends ex_utils plain_attribute [UnsupportedHost div_foo])
    as (rs & Hrs & Hrun & Hnone).
  rewrite Hrs, Hrun, (Hnone eq_refl). split; reflexivity.
Defined.

(** ** The further templates, evaluated *)

Example reports_li_item :
  reports_of (create ex_utils li_item) =
    Normal [UnsupportedHost li_item; SelfAliasing li_item].
Proof. reflexivity. Qed.

Example reports_input_empty_value_strict :
  reports_of (create ex_utils_strict input_empty_value) =
    Normal [MissingValue input_empty_value; InvalidLhs input_empty_value].
Proof. reflexivity. Qed.

Example reports_input_items_i :
  reports_of (create ex_utils input_items_i) = Normal [].
Proof. reflexivity. Qed.
